(** * Codex "responses" plugin: message encoder, stream assembler,
      response decoder, usage resolver and error classifier.

    Shallow embedding of [plugin-src/models/llm/llm.py] and
    [plugin-src/models/common_openai.py].

    Conventions of the embedding.
    - A Python [str] is a [string]; its characters are the code points
      below 256.  Python truthiness of a string is [truthy].
    - An attribute read with [getattr(o, "f", "")] and then only tested or
      concatenated is a [string] field in which the empty string stands for
      a missing (or [None]) attribute; where the code inspects the kind of
      the value ([isinstance]) the field has a sum type.
    - The [dict] of pending tool calls is a [gmap string PendingToolCall].
    - The generator of chunks is the list of the chunks it yields, in
      order.
    - The collaborators that are not part of the repository (tokenizer,
      JSON codec, usage pricing) are variables of a section. *)

From Stdlib Require Import ZArith Ascii String List Bool Lia.
From stdpp Require Import base option list gmap strings.
Import ListNotations.

Set Warnings "-register-all".

Local Open Scope string_scope.
Local Open Scope list_scope.

(** ** Python strings *)

Module PyStr.

(** [bool(s)] for a string. *)
Definition truthy (s : string) : bool :=
  match s with
  | EmptyString => false
  | String _ _ => true
  end.

(** [a or b] on strings. *)
Definition or_else (a b : string) : string :=
  if truthy a then a else b.

(** [str.isspace] on one character (code points below 256):
    TAB..CR, FS..US, SPACE, NEL and NBSP. *)
Definition isspace (c : ascii) : bool :=
  let n := nat_of_ascii c in
  ((9 <=? n)%nat && (n <=? 13)%nat)
  || ((28 <=? n)%nat && (n <=? 32)%nat)
  || (n =? 133)%nat
  || (n =? 160)%nat.

(** [s.lstrip()] *)
Fixpoint lstrip (s : string) : string :=
  match s with
  | EmptyString => EmptyString
  | String c s' => if isspace c then lstrip s' else s
  end.

(** [s.rstrip()] *)
Fixpoint rstrip (s : string) : string :=
  match s with
  | EmptyString => EmptyString
  | String c s' =>
      let r := rstrip s' in
      if negb (truthy r) && isspace c then EmptyString else String c r
  end.

(** [s.strip()] *)
Definition strip (s : string) : string := rstrip (lstrip s).

(** Every character of [s] is whitespace (true of the empty string). *)
Fixpoint all_space (s : string) : bool :=
  match s with
  | EmptyString => true
  | String c s' => isspace c && all_space s'
  end.

(** [sep.join(parts)] *)
Fixpoint join (sep : string) (parts : list string) : string :=
  match parts with
  | [] => EmptyString
  | [p] => p
  | p :: rest => p +:+ sep +:+ join sep rest
  end.

(** ["".join(parts)] *)
Fixpoint concat_all (parts : list string) : string :=
  match parts with
  | [] => EmptyString
  | p :: rest => p +:+ concat_all rest
  end.

End PyStr.

(** ** Data model *)

(** [AssistantPromptMessage.ToolCall.ToolCallFunction] *)
Record ToolCallFunction := mkToolCallFunction {
  fn_name : string;
  fn_arguments : string
}.

(** [AssistantPromptMessage.ToolCall] *)
Record ToolCall := mkToolCall {
  tc_id : string;
  tc_type : string;
  tc_function : ToolCallFunction
}.

(** One part of a multi-part message content.  [OtherContent] is a part
    that is neither text nor image by class: [oc_is_text] tells whether its
    [type] attribute equals [PromptMessageContentType.TEXT] and [oc_data]
    is its [data] attribute when it has one. *)
Inductive PromptMessageContent :=
| TextPromptMessageContent (data : string)
| ImagePromptMessageContent (url : string) (data : string) (detail : option string)
| OtherContent (oc_is_text : bool) (oc_data : option string).

(** [message.content]: a string, a list of parts, or anything else
    ([None] included). *)
Inductive Content :=
| ContentStr (s : string)
| ContentList (parts : list PromptMessageContent)
| ContentNone.

(** [PromptMessage] and its subclasses. *)
Inductive PromptMessage :=
| SystemPromptMessage (content : Content)
| UserPromptMessage (content : Content)
| AssistantPromptMessage (content : Content) (tool_calls : list ToolCall)
| ToolPromptMessage (content : Content) (tool_call_id : string)
| OtherPromptMessage (content : Content).

Definition pm_content (m : PromptMessage) : Content :=
  match m with
  | SystemPromptMessage c => c
  | UserPromptMessage c => c
  | AssistantPromptMessage c _ => c
  | ToolPromptMessage c _ => c
  | OtherPromptMessage c => c
  end.

(** A Python value as far as tool parameters need it (what [json.loads]
    can return, and what [json.dumps] accepts). *)
Inductive PyVal :=
| PNone
| PBool (b : bool)
| PInt (z : Z)
| PStr (s : string)
| PList (l : list PyVal)
| PDict (kv : list (string * PyVal)).

(** [bool(v)] *)
Definition py_truthy (v : PyVal) : bool :=
  match v with
  | PNone => false
  | PBool b => b
  | PInt z => negb (z =? 0)%Z
  | PStr s => PyStr.truthy s
  | PList l => match l with [] => false | _ => true end
  | PDict kv => match kv with [] => false | _ => true end
  end.

(** [PromptMessageTool]; [pt_description] is [""] for a missing one. *)
Record PromptMessageTool := mkTool {
  pt_name : string;
  pt_description : string;
  pt_parameters : PyVal
}.

(** The [usage] object of a remote response; a field is [None] when the
    attribute is missing or holds [None]. *)
Record ResponseUsage := mkResponseUsage {
  input_tokens : option Z;
  ru_prompt_tokens : option Z;
  output_tokens : option Z;
  ru_completion_tokens : option Z
}.

(** The [arguments] attribute of an output item of a one-shot response. *)
Inductive ItemArguments :=
| ArgsAbsent
| ArgsStr (s : string)
| ArgsDict (d : PyVal)
| ArgsOther.

(** A content part of an output item of kind "message". *)
Record OutputContent := mkOutputContent {
  ocp_type : string;
  ocp_text : string
}.

(** An item of [response.output]. *)
Record OutputItem := mkOutputItem {
  oi_type : string;
  oi_content : list OutputContent;
  oi_text : string;
  oi_name : string;
  oi_arguments : ItemArguments;
  oi_call_id : string;
  oi_id : string
}.

(** The remote [Response].  [resp_output_text] is [None] when the object
    has no denormalized full text; [resp_model] is [None] when it has no
    [model] attribute; [resp_id] is [""] when it has no [id]. *)
Record Response := mkResponse {
  resp_output_text : option string;
  resp_output : list OutputItem;
  resp_usage : option ResponseUsage;
  resp_model : option string;
  resp_id : string
}.

(** The [item] of an output-item event of the stream. *)
Record StreamItem := mkStreamItem {
  si_type : string;
  si_call_id : string;
  si_name : string;
  si_arguments : string
}.

(** A [ResponseStreamEvent].  [ev_arguments] is [None] when the attribute
    holds something that is not a string; a missing attribute reads as
    [Some ""], the default of [getattr]. *)
Record StreamEvent := mkStreamEvent {
  ev_type : string;
  ev_delta : string;
  ev_item_id : string;
  ev_item : option StreamItem;
  ev_arguments : option string;
  ev_response : option Response
}.

(** An entry of [pending_tool_calls]: [{"name": ..., "arguments": ...}]. *)
Record PendingToolCall := mkPending {
  p_name : string;
  p_arguments : string
}.

(** ** Output objects *)

(** [LLMResultChunkDelta]; the usage type comes from the plugin SDK. *)
Record LLMResultChunkDelta (U : Type) := mkDelta {
  d_index : nat;
  d_message : PromptMessage;
  d_finish_reason : option string;
  d_usage : option U
}.
Arguments mkDelta {U}.
Arguments d_index {U}.
Arguments d_message {U}.
Arguments d_finish_reason {U}.
Arguments d_usage {U}.

(** [LLMResultChunk] *)
Record LLMResultChunk (U : Type) := mkChunk {
  ch_model : string;
  ch_prompt_messages : list PromptMessage;
  ch_system_fingerprint : string;
  ch_delta : LLMResultChunkDelta U
}.
Arguments mkChunk {U}.
Arguments ch_model {U}.
Arguments ch_prompt_messages {U}.
Arguments ch_system_fingerprint {U}.
Arguments ch_delta {U}.

(** [LLMResult] *)
Record LLMResult (U : Type) := mkResult {
  r_model : string;
  r_prompt_messages : list PromptMessage;
  r_message : PromptMessage;
  r_usage : U;
  r_system_fingerprint : string
}.
Arguments mkResult {U}.
Arguments r_model {U}.
Arguments r_prompt_messages {U}.
Arguments r_message {U}.
Arguments r_usage {U}.
Arguments r_system_fingerprint {U}.

(** ** Local tokenization as an effect

    [_build_usage] calls [get_num_tokens] only on some paths.  A
    computation is paired with the list of the local tokenization requests
    it made, in order. *)

Record NumTokensCall := mkNumTokensCall {
  ntc_messages : list PromptMessage;
  ntc_tools : list PromptMessageTool
}.

Definition Counted (A : Type) : Type := (A * list NumTokensCall)%type.

Definition cret {A} (a : A) : Counted A := (a, []).

Definition cbind {A B} (m : Counted A) (f : A -> Counted B) : Counted B :=
  let '(a, l1) := m in
  let '(b, l2) := f a in
  (b, l1 ++ l2).

Notation "x <-- m ;; k" := (cbind m (fun x => k))
  (at level 100, m at next level, right associativity).

(** A remote tool spec, the dictionary built by
    [_convert_tool_to_response_tool]. *)
Record ResponseTool := mkResponseTool {
  rt_type : string;
  rt_name : string;
  rt_description : string;
  rt_parameters : PyVal
}.

(** A part of a multi-part user entry of the request. *)
Inductive InputPart :=
| InputText (text : string)
| InputImage (image_url : string) (detail : option string).

(** An entry of the request's [input] list. *)
Inductive InputEntry :=
| RoleContent (role : string) (content : string)
| RoleParts (role : string) (content : list InputPart)
| FunctionCallEntry (call_id : string) (name : string) (arguments : string)
| FunctionCallOutputEntry (call_id : string) (output : string).

(** ** Helpers shared by encoder, decoder and assembler *)

(** [_extract_text] *)
Definition extract_text (message : PromptMessage) : string :=
  match pm_content message with
  | ContentStr s => s
  | ContentList items =>
      let chunks :=
        flat_map (fun item =>
          match item with
          | TextPromptMessageContent data => [data]
          | OtherContent true (Some data) => [data]
          | _ => []
          end) items in
      PyStr.join "
" (filter (fun chunk => PyStr.truthy chunk = true) chunks)
  | ContentNone => ""
  end.

(** [_build_tool_call] *)
Definition build_tool_call (function_name call_id arguments : string) : ToolCall :=
  {| tc_id := PyStr.or_else call_id function_name;
     tc_type := "function";
     tc_function :=
       {| fn_name := function_name;
          fn_arguments := PyStr.or_else arguments "{}" |} |}.

(** [a or b or 0] on optional counts: [None] and [0] are falsy. *)
Definition count_or (a b : option Z) : Z :=
  match a with
  | Some n => if (n =? 0)%Z then default 0%Z b else n
  | None => default 0%Z b
  end.

(** ** MessageEncoder: messages *)

(** [_convert_prompt_messages_to_responses_input] *)
Definition convert_prompt_messages_to_responses_input
    (prompt_messages : list PromptMessage) : list InputEntry :=
  flat_map (fun message =>
    match message with
    | SystemPromptMessage _ =>
        let content := extract_text message in
        if PyStr.truthy content then [RoleContent "developer" content] else []
    | UserPromptMessage (ContentStr text) => [RoleContent "user" text]
    | UserPromptMessage other =>
        let items :=
          match other with
          | ContentList items => items
          | _ => []
          end in
        let content_parts :=
          flat_map (fun item =>
            match item with
            | TextPromptMessageContent data => [InputText data]
            | ImagePromptMessageContent url data detail =>
                let image_url := if PyStr.truthy url then url else data in
                [InputImage image_url detail]
            | OtherContent _ _ => []
            end) items in
        match content_parts with
        | [] => []
        | _ => [RoleParts "user" content_parts]
        end
    | AssistantPromptMessage _ tool_calls =>
        let assistant_text := extract_text message in
        (if PyStr.truthy assistant_text
         then [RoleContent "assistant" assistant_text] else [])
        ++ map (fun tool_call =>
                  FunctionCallEntry
                    (PyStr.or_else (tc_id tool_call) (fn_name (tc_function tool_call)))
                    (fn_name (tc_function tool_call))
                    (PyStr.or_else (fn_arguments (tc_function tool_call)) "{}"))
               tool_calls
    | ToolPromptMessage _ tool_call_id =>
        let tool_output := extract_text message in
        [FunctionCallOutputEntry tool_call_id (PyStr.or_else tool_output "")]
    | OtherPromptMessage _ =>
        let text := extract_text message in
        if PyStr.truthy text then [RoleContent "user" text] else []
    end) prompt_messages.

(** ** Model-name resolution: [_resolve_model_with_performance_tier] *)

Module Tier.

Definition code (c : ascii) : nat := nat_of_ascii c.

(** [str.lower] on one character: A..Z, and the capital letters of the
    Latin-1 block (U+00C0..U+00DE without U+00D7). *)
Definition lower_char (c : ascii) : ascii :=
  let n := code c in
  if ((65 <=? n)%nat && (n <=? 90)%nat)
     || ((192 <=? n)%nat && (n <=? 222)%nat && negb (n =? 215)%nat)
  then ascii_of_nat (n + 32) else c.

(** [s.lower()] *)
Fixpoint lower (s : string) : string :=
  match s with
  | EmptyString => EmptyString
  | String c s' => String (lower_char c) (lower s')
  end.

(** [s.lstrip("-")] *)
Fixpoint lstrip_hyphen (s : string) : string :=
  match s with
  | String "-"%char s' => lstrip_hyphen s'
  | _ => s
  end.

(** The class [[a-z0-9]]. *)
Definition is_lower_alnum (c : ascii) : bool :=
  let n := code c in
  ((97 <=? n)%nat && (n <=? 122)%nat) || ((48 <=? n)%nat && (n <=? 57)%nat).

(** The class [[a-z0-9._-]]. *)
Definition is_tier_char (c : ascii) : bool :=
  is_lower_alnum c || Ascii.eqb c "." || Ascii.eqb c "_" || Ascii.eqb c "-".

Fixpoint all_chars (p : ascii -> bool) (s : string) : bool :=
  match s with
  | EmptyString => true
  | String c s' => p c && all_chars p s'
  end.

(** [_TIER_VALUE_PATTERN.fullmatch(tier)] is not [None], for the pattern
    [^[a-z0-9][a-z0-9._-]{0,31}$]. *)
Definition tier_value_fullmatch (tier : string) : bool :=
  match tier with
  | EmptyString => false
  | String c rest =>
      is_lower_alnum c && (String.length rest <=? 31)%nat && all_chars is_tier_char rest
  end.

(** Case folding of [re.IGNORECASE] towards the ASCII letters: among the
    code points below 256 only the ASCII capital folds onto an ASCII
    letter. *)
Definition fold_char (c : ascii) : ascii :=
  let n := code c in
  if (65 <=? n)%nat && (n <=? 90)%nat then ascii_of_nat (n + 32) else c.

(** A pattern character (a lower-case ASCII letter or the hyphen) against
    a subject character under [re.IGNORECASE]. *)
Definition char_match_i (p c : ascii) : bool :=
  Ascii.eqb p (fold_char c).

(** Match the literal [lit] at the start of [s], ignoring case; the result
    is what follows the match. *)
Fixpoint match_literal_i (lit s : string) : option string :=
  match lit, s with
  | EmptyString, _ => Some s
  | String p lit', String c s' =>
      if char_match_i p c then match_literal_i lit' s' else None
  | String _ _, EmptyString => None
  end.

(** The group [(?:medium|high|xhigh)], alternatives tried in order. *)
Definition match_tier_word (s : string) : option string :=
  match match_literal_i "medium" s with
  | Some rest => Some rest
  | None =>
      match match_literal_i "high" s with
      | Some rest => Some rest
      | None => match_literal_i "xhigh" s
      end
  end.

(** [-(?:medium|high|xhigh)] *)
Definition match_hyphen_word (s : string) : option string :=
  match_literal_i "-" s ≫= match_tier_word.

(** [$] without [re.MULTILINE]: at the end of the string, or just before a
    newline that ends the string. *)
Definition at_dollar (s : string) : bool :=
  match s with
  | EmptyString => true
  | String c EmptyString => Ascii.eqb c (ascii_of_nat 10)
  | _ => false
  end.

(** [_TIER_SUFFIX_PATTERN] matched at the start of [s], that is
    [-(?:medium|high|xhigh)(?:-(?:medium|high|xhigh))?$] under
    [re.IGNORECASE]: the optional group is tried first (greedy) and given
    up when [$] fails after it.  The result is what follows the match. *)
Definition match_tier_suffix (s : string) : option string :=
  match match_hyphen_word s with
  | Some rest1 =>
      match match_hyphen_word rest1 with
      | Some rest2 =>
          if at_dollar rest2 then Some rest2
          else if at_dollar rest1 then Some rest1 else None
      | None => if at_dollar rest1 then Some rest1 else None
      end
  | None => None
  end.

(** [_TIER_SUFFIX_PATTERN.sub("", model)]: the leftmost match is removed.
    What follows a match is empty or a single newline, where the pattern
    (which starts with a hyphen) matches nowhere, so the scan ends there. *)
Fixpoint tier_suffix_sub (model : string) : string :=
  match match_tier_suffix model with
  | Some rest => rest
  | None =>
      match model with
      | EmptyString => EmptyString
      | String c model' => String c (tier_suffix_sub model')
      end
  end.

(** The value of the local [tier]. *)
Definition effective_tier (tier_value custom_tier_value : string) : string :=
  let custom_tier :=
    lstrip_hyphen (lower (PyStr.strip (PyStr.or_else custom_tier_value ""))) in
  if PyStr.truthy custom_tier then custom_tier
  else lower (PyStr.strip (PyStr.or_else tier_value "auto")).

(** [_resolve_model_with_performance_tier]; [tier_value] and
    [custom_tier_value] are strings, [""] standing for [None]. *)
Definition resolve_model_with_performance_tier
    (model tier_value custom_tier_value : string) : string :=
  let tier := effective_tier tier_value custom_tier_value in
  if String.eqb tier "" || String.eqb tier "auto" then model
  else if negb (tier_value_fullmatch tier) then model
  else
    let base_model := tier_suffix_sub model in
    base_model +:+ "-" +:+ tier.

(** *** The resolution rule in words *)

(** A string with its ASCII capitals folded. *)
Fixpoint fold_case (s : string) : string :=
  match s with
  | EmptyString => EmptyString
  | String c s' => String (fold_char c) (fold_case s')
  end.

(** The tier words. *)
Definition tier_words : list string := ["medium"; "high"; "xhigh"].

(** The recognized tier suffixes: one tier word, or two, each after a
    hyphen. *)
Definition recognized_suffixes : list string :=
  map (fun a => "-" +:+ a) tier_words
  ++ flat_map (fun a => map (fun b => "-" +:+ a +:+ "-" +:+ b) tier_words)
       tier_words.

(** [s] is a recognized tier suffix, whatever the case of its letters. *)
Definition is_recognized_suffix (s : string) : bool :=
  existsb (String.eqb (fold_case s)) recognized_suffixes.


(** The strict token pattern: 1 to 32 characters among the lower-case
    letters, the digits and [._-], the first a letter or a digit. *)
Definition strict_token (tier : string) : bool :=
  (1 <=? String.length tier)%nat
  && (String.length tier <=? 32)%nat
  && match tier with
     | String c _ => is_lower_alnum c
     | EmptyString => false
     end
  && all_chars is_tier_char tier.


(** The model id ends with a line feed. *)
Fixpoint ends_with_newline (s : string) : bool :=
  match s with
  | EmptyString => false
  | String c EmptyString => Ascii.eqb c (ascii_of_nat 10)
  | String _ s' => ends_with_newline s'
  end.

End Tier.

(** ** ErrorClassifier: [_invoke_error_mapping], [_with_invoke_error_mapping] *)

Module Errors.

(** The exception classes of the [openai] package, and [OtherException]
    for an [Exception] that is none of them. *)
Inductive ExcClass :=
| OtherException
| OpenAIError
| APIError
| APIResponseValidationError
| APIStatusError
| APIConnectionError
| APITimeoutError
| BadRequestError
| AuthenticationError
| PermissionDeniedError
| NotFoundError
| ConflictError
| UnprocessableEntityError
| RateLimitError
| InternalServerError.

#[global] Instance ExcClass_eq_dec : EqDecision ExcClass :=
  ltac:(solve_decision).

(** The base class inside the package, as [openai/_exceptions.py] declares
    it; [None] for a class deriving directly from [Exception]. *)
Definition base (c : ExcClass) : option ExcClass :=
  match c with
  | OtherException => None
  | OpenAIError => None
  | APIError => Some OpenAIError
  | APIResponseValidationError => Some APIError
  | APIStatusError => Some APIError
  | APIConnectionError => Some APIError
  | APITimeoutError => Some APIConnectionError
  | BadRequestError => Some APIStatusError
  | AuthenticationError => Some APIStatusError
  | PermissionDeniedError => Some APIStatusError
  | NotFoundError => Some APIStatusError
  | ConflictError => Some APIStatusError
  | UnprocessableEntityError => Some APIStatusError
  | RateLimitError => Some APIStatusError
  | InternalServerError => Some APIStatusError
  end.

(** [issubclass(c, d)], following [base] at most [depth] times. *)
Fixpoint issubclass_upto (depth : nat) (c d : ExcClass) : bool :=
  if decide (c = d) then true
  else
    match depth with
    | O => false
    | S depth' =>
        match base c with
        | Some b => issubclass_upto depth' b d
        | None => false
        end
    end.

(** The hierarchy is four levels deep. *)
Definition issubclass (c d : ExcClass) : bool := issubclass_upto 4 c d.

(** The invocation errors of the plugin SDK. *)
Inductive InvokeErrorClass :=
| InvokeError
| InvokeConnectionError
| InvokeServerUnavailableError
| InvokeRateLimitError
| InvokeAuthorizationError
| InvokeBadRequestError.

(** [_invoke_error_mapping]: the dictionary in insertion order. *)
Definition invoke_error_mapping : list (InvokeErrorClass * list ExcClass) :=
  [ (InvokeConnectionError, [APIConnectionError; APITimeoutError]);
    (InvokeServerUnavailableError, [InternalServerError]);
    (InvokeRateLimitError, [RateLimitError]);
    (InvokeAuthorizationError, [AuthenticationError; PermissionDeniedError]);
    (InvokeBadRequestError,
      [BadRequestError; NotFoundError; UnprocessableEntityError; APIError]) ].

(** What a call does: return a value, or raise an exception of some class
    whose [str] is [msg]. *)
Inductive Outcome (E A : Type) :=
| Returns (value : A)
| Raises (cls : E) (msg : string).
Arguments Returns {E A}.
Arguments Raises {E A}.

(** The loop of the handler: the first entry of the table one of whose
    classes [ex] is an instance of. *)
Fixpoint first_mapped (ex : ExcClass)
    (table : list (InvokeErrorClass * list ExcClass)) : option InvokeErrorClass :=
  match table with
  | [] => None
  | (mapped_error, openai_errors) :: rest =>
      if existsb (issubclass ex) openai_errors then Some mapped_error
      else first_mapped ex rest
  end.

(** [_with_invoke_error_mapping]; [fn] is the outcome of calling [fn()]. *)
Definition with_invoke_error_mapping {A} (fn : Outcome ExcClass A)
    : Outcome InvokeErrorClass A :=
  match fn with
  | Returns value => Returns value
  | Raises ex msg =>
      match first_mapped ex invoke_error_mapping with
      | Some mapped_error => Raises mapped_error msg
      | None => Raises InvokeError msg
      end
  end.

(** *** The classification in words *)

(** Connection failure and timeout are Connection; the internal server
    fault is ServerUnavailable; rate limiting is RateLimit; the
    authentication and permission faults are Authorization; the malformed
    request, not-found, unprocessable entity and every other API fault are
    BadRequest; anything else is the generic error. *)
Definition classify (ex : ExcClass) : InvokeErrorClass :=
  match ex with
  | APIConnectionError | APITimeoutError => InvokeConnectionError
  | InternalServerError => InvokeServerUnavailableError
  | RateLimitError => InvokeRateLimitError
  | AuthenticationError | PermissionDeniedError => InvokeAuthorizationError
  | BadRequestError | NotFoundError | UnprocessableEntityError
  | APIError | APIStatusError | APIResponseValidationError | ConflictError =>
      InvokeBadRequestError
  | OpenAIError | OtherException => InvokeError
  end.

End Errors.

(** ** Client settings: [_CommonOpenAI._to_credential_kwargs] *)

Module Common.

(** [s.rstrip("/")] *)
Fixpoint rstrip_slash (s : string) : string :=
  match s with
  | EmptyString => EmptyString
  | String c s' =>
      let r := rstrip_slash s' in
      if negb (PyStr.truthy r) && Ascii.eqb c "/" then EmptyString
      else String c r
  end.

(** [httpx.Timeout(315.0, read=300.0, write=10.0, connect=5.0)], in
    seconds; the positional value is the default of the fields not given. *)
Record Timeout := mkTimeout {
  t_pool : Z;
  t_read : Z;
  t_write : Z;
  t_connect : Z
}.

(** The keyword arguments of the client. *)
Record CredentialKwargs := mkCredentialKwargs {
  ck_api_key : string;
  ck_base_url : string;
  ck_timeout : Timeout;
  ck_max_retries : Z
}.

(** [_to_credential_kwargs]: the keyword arguments, or the key whose
    lookup raises [KeyError].  The credentials are a dictionary of
    strings. *)
Definition to_credential_kwargs (credentials : gmap string string)
    : CredentialKwargs + string :=
  match credentials !! "codex_api_base" with
  | None => inr "codex_api_base"
  | Some value =>
      let api_base := rstrip_slash value in
      match credentials !! "codex_api_key" with
      | None => inr "codex_api_key"
      | Some api_key =>
          inl {| ck_api_key := api_key;
                 ck_base_url := api_base;
                 ck_timeout :=
                   {| t_pool := 315; t_read := 300; t_write := 10;
                      t_connect := 5 |};
                 ck_max_retries := 1 |}
      end
  end.

(** [n] slashes. *)
Fixpoint slashes (n : nat) : string :=
  match n with
  | O => EmptyString
  | S n' => String "/" (slashes n')
  end.

(** The last character of a string, if any. *)
Fixpoint last_char (s : string) : option ascii :=
  match s with
  | EmptyString => None
  | String c EmptyString => Some c
  | String _ s' => last_char s'
  end.

End Common.

(** ** Model catalog: [_pick_template_model],
       [_build_model_entity_from_template], [remote_models] *)

Module Catalog.

(** [I18nObject] *)
Record I18nObject := mkI18n {
  en_US : string;
  zh_Hans : string
}.

(** [FetchFrom] *)
Inductive FetchFrom :=
| PREDEFINED_MODEL
| CUSTOMIZABLE_MODEL.

(** [ModelType] *)
Inductive ModelType :=
| LLM
| TEXT_EMBEDDING
| RERANK
| SPEECH2TEXT
| MODERATION
| TTS.

(** [AIModelEntity], over the SDK's types of features, parameter rules
    and prices.  A missing list or dictionary is the empty one. *)
Record AIModelEntity (Feature ParameterRule PriceConfig : Type) := mkEntity {
  me_model : string;
  me_label : I18nObject;
  me_model_type : ModelType;
  me_features : list Feature;
  me_fetch_from : FetchFrom;
  me_model_properties : gmap string PyVal;
  me_parameter_rules : list ParameterRule;
  me_pricing : option PriceConfig
}.
Arguments mkEntity {Feature ParameterRule PriceConfig}.
Arguments me_model {Feature ParameterRule PriceConfig}.
Arguments me_label {Feature ParameterRule PriceConfig}.
Arguments me_model_type {Feature ParameterRule PriceConfig}.
Arguments me_features {Feature ParameterRule PriceConfig}.
Arguments me_fetch_from {Feature ParameterRule PriceConfig}.
Arguments me_model_properties {Feature ParameterRule PriceConfig}.
Arguments me_parameter_rules {Feature ParameterRule PriceConfig}.
Arguments me_pricing {Feature ParameterRule PriceConfig}.

(** What [remote_models] can raise. *)
Inductive RemoteModelsError :=
| ValueError
| KeyError
| Invoke (cls : Errors.InvokeErrorClass).

(** The ids of a list in the order of their first occurrence. *)
Fixpoint first_occurrences (ids : list string) : list string :=
  match ids with
  | [] => []
  | id :: rest =>
      id :: filter (fun other => other <> id) (first_occurrences rest)
  end.

Section Entities.

Context {Feature ParameterRule PriceConfig : Type}.

Local Abbreviation Entity := (AIModelEntity Feature ParameterRule PriceConfig).

(** [_pick_template_model]; [predefined] is [self.predefined_models()] and
    [None] is the [ValueError]. *)
Definition pick_template_model (predefined : list Entity) : option Entity :=
  match predefined with
  | [] => None
  | first :: _ =>
      Some (default first
              (List.find (fun item => String.eqb (me_model item) "gpt-5.2")
                 predefined))
  end.

(** [_build_model_entity_from_template] *)
Definition build_model_entity_from_template (model_id : string)
    (template : Entity) : Entity :=
  {| me_model := model_id;
     me_label := {| en_US := model_id; zh_Hans := model_id |};
     me_model_type := LLM;
     me_features := me_features template;
     me_fetch_from := CUSTOMIZABLE_MODEL;
     me_model_properties := me_model_properties template;
     me_parameter_rules := me_parameter_rules template;
     me_pricing := me_pricing template |}.

(** The loop of [remote_models] over the ids of the listed items (the
    empty string for an item without id): the entities and the set of ids
    seen so far. *)
Definition remote_models_step (template : Entity)
    (acc : list Entity * gset string) (model_id : string)
    : list Entity * gset string :=
  let '(entities, seen) := acc in
  if negb (PyStr.truthy model_id) || bool_decide (model_id ∈ seen)
  then (entities, seen)
  else (entities ++ [build_model_entity_from_template model_id template],
        {[model_id]} ∪ seen).

(** [remote_models]: the template is picked first, then the client is
    built from the credentials, then the listing is made under the error
    mapping; [listing] is the outcome of [client.models.list()], as the
    ids of its items (the empty string for an item without id).  The
    message of the [KeyError] is the missing key; the constructor of the
    client itself is taken to succeed. *)
Definition remote_models (predefined : list Entity)
    (credentials : gmap string string)
    (listing : Errors.Outcome Errors.ExcClass (list string))
    : Errors.Outcome RemoteModelsError (list Entity) :=
  match pick_template_model predefined with
  | None => Errors.Raises ValueError "No predefined model schema found"
  | Some template =>
      match Common.to_credential_kwargs credentials with
      | inr key => Errors.Raises KeyError key
      | inl _ =>
          match Errors.with_invoke_error_mapping listing with
          | Errors.Raises cls msg => Errors.Raises (Invoke cls) msg
          | Errors.Returns remote_items =>
              Errors.Returns
                (fst (fold_left (remote_models_step template) remote_items
                        ([], ∅)))
          end
      end
  end.

End Entities.

End Catalog.

(** ** Events and collaborators for concrete runs *)

Module Demo.

(** The double quote, for JSON texts. *)
Definition dq : string := String "034" EmptyString.

(** [{"x":1}] *)
Definition json_x1 : string := "{" +:+ dq +:+ "x" +:+ dq +:+ ":1}".

Definition function_call_item (call_id name arguments : string) : StreamItem :=
  {| si_type := "function_call"; si_call_id := call_id;
     si_name := name; si_arguments := arguments |}.

Definition text_delta (item_id delta : string) : StreamEvent :=
  {| ev_type := "response.output_text.delta"; ev_delta := delta;
     ev_item_id := item_id; ev_item := None; ev_arguments := Some "";
     ev_response := None |}.

Definition item_added (item : StreamItem) : StreamEvent :=
  {| ev_type := "response.output_item.added"; ev_delta := "";
     ev_item_id := ""; ev_item := Some item; ev_arguments := Some "";
     ev_response := None |}.

Definition arguments_delta (item_id delta : string) : StreamEvent :=
  {| ev_type := "response.function_call_arguments.delta"; ev_delta := delta;
     ev_item_id := item_id; ev_item := None; ev_arguments := Some "";
     ev_response := None |}.


Definition item_done (item : StreamItem) : StreamEvent :=
  {| ev_type := "response.output_item.done"; ev_delta := "";
     ev_item_id := ""; ev_item := Some item; ev_arguments := Some "";
     ev_response := None |}.

Definition completed (response : Response) : StreamEvent :=
  {| ev_type := "response.completed"; ev_delta := "";
     ev_item_id := ""; ev_item := None; ev_arguments := Some "";
     ev_response := Some response |}.

(** Stand-ins for the collaborators: a usage object that is the pair of
    the two counts, a tokenizer with one token per character, and a JSON
    codec that knows three documents. *)
Definition Credentials : Type := unit.
Definition LLMUsage : Type := (Z * Z)%type.
Definition calc_response_usage (model : string) (credentials : Credentials)
    (prompt_tokens completion_tokens : Z) : LLMUsage :=
  (prompt_tokens, completion_tokens).
Definition Encoding : Type := unit.
Definition encoding_for_model (model : string) : option Encoding := Some tt.
Definition get_encoding (name : string) : Encoding := tt.
Definition encode (encoding : Encoding) (text : string) : list nat :=
  map nat_of_ascii (list_ascii_of_string text).
Definition json_dumps (value : PyVal) : string :=
  match value with
  | PNone => "null"
  | PList [] => "[]"
  | _ => "{}"
  end.
Definition json_loads (text : string) : option PyVal :=
  if String.eqb text "null" then Some PNone
  else if String.eqb text "[]" then Some (PList [])
  else if String.eqb text "{}" then Some (PDict [])
  else None.

End Demo.

(** ** The rule for the arguments of a finalized tool call, as a table *)

(** The buffered arguments when the call id is known and the buffer is not
    empty; else the item's own arguments when not empty; else ["{}"]. *)
Definition effective_arguments (pending : gmap string PendingToolCall)
    (item : StreamItem) : string :=
  match pending !! si_call_id item with
  | Some entry =>
      if PyStr.truthy (p_arguments entry) then p_arguments entry
      else if PyStr.truthy (si_arguments item) then si_arguments item
      else "{}"
  | None =>
      if PyStr.truthy (si_arguments item) then si_arguments item else "{}"
  end.

(** ** The remote-reported counts, as the usage rule words them *)

(** A reported count that is present and not zero. *)
Definition nonzero_count (count : option Z) : option Z :=
  match count with
  | Some n => if (n =? 0)%Z then None else Some n
  | None => None
  end.

(** The count under either of its two field names: the first name when it
    holds a non-zero count, else the second name when that one does. *)
Definition reported_count (first_name second_name : option Z) : option Z :=
  match nonzero_count first_name with
  | Some n => Some n
  | None => nonzero_count second_name
  end.

(** The prompt-token count the remote side reported, if any. *)
Definition reported_prompt_tokens (response : option Response) : option Z :=
  usage ← response ≫= resp_usage;
  reported_count (input_tokens usage) (ru_prompt_tokens usage).

(** The completion-token count the remote side reported, if any. *)
Definition reported_completion_tokens (response : option Response) : option Z :=
  usage ← response ≫= resp_usage;
  reported_count (output_tokens usage) (ru_completion_tokens usage).

(** The kinds of content part the decoder reads text from. *)
Definition text_like (content_type : string) : bool :=
  String.eqb content_type "output_text"
  || String.eqb content_type "text"
  || String.eqb content_type "input_text".

(** A value that is a JSON object. *)
Definition is_object (value : PyVal) : bool :=
  match value with
  | PDict _ => true
  | _ => false
  end.

(** ** Code that depends on the collaborators *)

Section Plugin.

(** Collaborators outside the repository: the credentials dictionary, the
    SDK's usage object and [_calc_response_usage], tiktoken
    ([encoding_for_model] is [None] when it raises), and [json]. *)
Variable Credentials : Type.
Variable LLMUsage : Type.
Variable calc_response_usage : string -> Credentials -> Z -> Z -> LLMUsage.
Variable Encoding : Type.
Variable encoding_for_model : string -> option Encoding.
Variable get_encoding : string -> Encoding.
Variable encode : Encoding -> string -> list nat.
Variable json_dumps : PyVal -> string.
Variable json_loads : string -> option PyVal.

(** [get_num_tokens]; [tools] is the empty list for [None]. *)
Definition get_num_tokens (model : string) (credentials : Credentials)
    (prompt_messages : list PromptMessage) (tools : list PromptMessageTool) : nat :=
  let text :=
    PyStr.join "
" (filter (fun part => PyStr.truthy part = true)
                (map extract_text prompt_messages)) in
  if negb (PyStr.truthy text) then 0
  else
    let encoding :=
      match encoding_for_model model with
      | Some e => e
      | None => get_encoding "cl100k_base"
      end in
    let token_count := length (encode encoding text) in
    fold_left (fun token_count tool =>
      token_count
      + length (encode encoding (pt_name tool))
      + length (encode encoding (pt_description tool))
      + length (encode encoding
          (json_dumps (if py_truthy (pt_parameters tool)
                       then pt_parameters tool else PDict []))))
      tools token_count.

(** A call of [get_num_tokens], recorded. *)
Definition call_get_num_tokens (model : string) (credentials : Credentials)
    (prompt_messages : list PromptMessage) (tools : list PromptMessageTool)
    : Counted Z :=
  (Z.of_nat (get_num_tokens model credentials prompt_messages tools),
   [mkNumTokensCall prompt_messages tools]).

(** The two counts [_build_usage] hands to [_calc_response_usage]. *)
Definition usage_counts (model : string) (credentials : Credentials)
    (response : option Response) (prompt_messages : list PromptMessage)
    (assistant_prompt_message : PromptMessage)
    (tools : list PromptMessageTool) : Counted (Z * Z) :=
  let response_usage := response ≫= resp_usage in
  let prompt_tokens :=
    match response_usage with
    | Some u => count_or (input_tokens u) (ru_prompt_tokens u)
    | None => 0%Z
    end in
  let completion_tokens :=
    match response_usage with
    | Some u => count_or (output_tokens u) (ru_completion_tokens u)
    | None => 0%Z
    end in
  prompt_tokens <--
    (if (prompt_tokens =? 0)%Z
     then call_get_num_tokens model credentials prompt_messages tools
     else cret prompt_tokens) ;;
  completion_tokens <--
    (if (completion_tokens =? 0)%Z
     then call_get_num_tokens model credentials [assistant_prompt_message] []
     else cret completion_tokens) ;;
  cret (prompt_tokens, completion_tokens).

(** [_build_usage] *)
Definition build_usage (model : string) (credentials : Credentials)
    (response : option Response) (prompt_messages : list PromptMessage)
    (assistant_prompt_message : PromptMessage)
    (tools : list PromptMessageTool) : Counted LLMUsage :=
  counts <-- usage_counts model credentials response prompt_messages
               assistant_prompt_message tools ;;
  cret (calc_response_usage model credentials (fst counts) (snd counts)).

(** ** StreamAssembler: [_handle_responses_stream_response] *)

(** The local variables of the generator. *)
Record StreamState := mkStreamState {
  full_text : string;
  index : nat;
  tool_calls : list ToolCall;
  pending_tool_calls : gmap string PendingToolCall;
  current_tool_call : option string;
  final_response : option Response
}.

Definition initial_state : StreamState :=
  {| full_text := "";
     index := 0;
     tool_calls := [];
     pending_tool_calls := ∅;
     current_tool_call := None;
     final_response := None |}.

(** [getattr(event, "item_id", "") or current_tool_call] *)
Definition resolve_call_id (event : StreamEvent) (st : StreamState) : option string :=
  if PyStr.truthy (ev_item_id event) then Some (ev_item_id event)
  else current_tool_call st.

(** [call_id and call_id in pending_tool_calls], for an optional id. *)
Definition known_call (call_id : option string)
    (pending : gmap string PendingToolCall) : option (string * PendingToolCall) :=
  match call_id with
  | Some cid =>
      if PyStr.truthy cid then
        match pending !! cid with
        | Some entry => Some (cid, entry)
        | None => None
        end
      else None
  | None => None
  end.

(** One iteration of [for event in response]: the new values of the local
    variables and the chunks yielded during the iteration. *)
Definition step (model : string) (prompt_messages : list PromptMessage)
    (st : StreamState) (event : StreamEvent)
    : StreamState * list (LLMResultChunk LLMUsage) :=
  let event_type := ev_type event in
  if String.eqb event_type "response.output_text.delta" then
    let delta_text := ev_delta event in
    if negb (PyStr.truthy delta_text) then (st, [])
    else
      ({| full_text := full_text st +:+ delta_text;
          index := index st + 1;
          tool_calls := tool_calls st;
          pending_tool_calls := pending_tool_calls st;
          current_tool_call := current_tool_call st;
          final_response := final_response st |},
       [ {| ch_model := model;
            ch_prompt_messages := prompt_messages;
            ch_system_fingerprint := ev_item_id event;
            ch_delta :=
              {| d_index := index st;
                 d_message := AssistantPromptMessage (ContentStr delta_text) [];
                 d_finish_reason := None;
                 d_usage := None |} |} ])
  else if String.eqb event_type "response.output_item.added" then
    match ev_item event with
    | Some item =>
        if String.eqb (si_type item) "function_call" then
          let call_id := si_call_id item in
          let function_name := si_name item in
          if PyStr.truthy call_id then
            ({| full_text := full_text st;
                index := index st;
                tool_calls := tool_calls st;
                pending_tool_calls :=
                  <[call_id := {| p_name := function_name; p_arguments := "" |}]>
                    (pending_tool_calls st);
                current_tool_call := Some call_id;
                final_response := final_response st |}, [])
          else (st, [])
        else (st, [])
    | None => (st, [])
    end
  else if String.eqb event_type "response.function_call_arguments.delta" then
    let delta_args := ev_delta event in
    let call_id := resolve_call_id event st in
    match known_call call_id (pending_tool_calls st) with
    | Some (cid, entry) =>
        if PyStr.truthy delta_args then
          ({| full_text := full_text st;
              index := index st;
              tool_calls := tool_calls st;
              pending_tool_calls :=
                <[cid := {| p_name := p_name entry;
                            p_arguments := p_arguments entry +:+ delta_args |}]>
                  (pending_tool_calls st);
              current_tool_call := current_tool_call st;
              final_response := final_response st |}, [])
        else (st, [])
    | None => (st, [])
    end
  else if String.eqb event_type "response.function_call_arguments.done" then
    let call_id := resolve_call_id event st in
    match known_call call_id (pending_tool_calls st), ev_arguments event with
    | Some (cid, entry), Some final_args =>
        ({| full_text := full_text st;
            index := index st;
            tool_calls := tool_calls st;
            pending_tool_calls :=
              <[cid := {| p_name := p_name entry; p_arguments := final_args |}]>
                (pending_tool_calls st);
            current_tool_call := current_tool_call st;
            final_response := final_response st |}, [])
    | _, _ => (st, [])
    end
  else if String.eqb event_type "response.output_item.done" then
    match ev_item event with
    | Some item =>
        if negb (String.eqb (si_type item) "function_call") then (st, [])
        else
          let call_id := si_call_id item in
          let function_name := si_name item in
          let fallback_arguments := PyStr.or_else (si_arguments item) "{}" in
          let arguments :=
            match known_call (Some call_id) (pending_tool_calls st) with
            | Some (_, entry) => PyStr.or_else (p_arguments entry) fallback_arguments
            | None => fallback_arguments
            end in
          let tool_call := build_tool_call function_name call_id arguments in
          let emitted := PyStr.truthy function_name in
          ({| full_text := full_text st;
              index := if emitted then index st + 1 else index st;
              tool_calls :=
                if emitted then tool_calls st ++ [tool_call] else tool_calls st;
              pending_tool_calls := delete call_id (pending_tool_calls st);
              current_tool_call :=
                if decide (Some call_id = current_tool_call st) then None
                else current_tool_call st;
              final_response := final_response st |},
           if emitted then
             [ {| ch_model := model;
                  ch_prompt_messages := prompt_messages;
                  ch_system_fingerprint := call_id;
                  ch_delta :=
                    {| d_index := index st;
                       d_message := AssistantPromptMessage (ContentStr "") [tool_call];
                       d_finish_reason := None;
                       d_usage := None |} |} ]
           else [])
    | None => (st, [])
    end
  else if String.eqb event_type "response.completed" then
    ({| full_text := full_text st;
        index := index st;
        tool_calls := tool_calls st;
        pending_tool_calls := pending_tool_calls st;
        current_tool_call := current_tool_call st;
        final_response := ev_response event |}, [])
  else (st, []).

(** The loop over the events: final local variables and all chunks
    yielded inside the loop. *)
Fixpoint run_events (model : string) (prompt_messages : list PromptMessage)
    (st : StreamState) (events : list StreamEvent)
    : StreamState * list (LLMResultChunk LLMUsage) :=
  match events with
  | [] => (st, [])
  | event :: rest =>
      let '(st1, out1) := step model prompt_messages st event in
      let '(st2, out2) := run_events model prompt_messages st1 rest in
      (st2, out1 ++ out2)
  end.

(** [finish_reason] of the terminal chunk. *)
Definition finish_reason_of (st : StreamState) : string :=
  if match tool_calls st with [] => false | _ => true end
     && negb (PyStr.truthy (PyStr.strip (full_text st)))
  then "tool_calls" else "stop".

(** The chunk yielded after the loop. *)
Definition terminal_chunk (model : string) (credentials : Credentials)
    (prompt_messages : list PromptMessage) (tools : list PromptMessageTool)
    (st : StreamState) : LLMResultChunk LLMUsage :=
  let usage :=
    fst (build_usage model credentials (final_response st) prompt_messages
           (AssistantPromptMessage (ContentStr (full_text st)) (tool_calls st))
           tools) in
  {| ch_model := model;
     ch_prompt_messages := prompt_messages;
     ch_system_fingerprint :=
       match final_response st with Some r => resp_id r | None => "" end;
     ch_delta :=
       {| d_index := index st;
          d_message := AssistantPromptMessage (ContentStr "") [];
          d_finish_reason := Some (finish_reason_of st);
          d_usage := Some usage |} |}.

(** [_handle_responses_stream_response]: every chunk the generator
    yields when it is run to exhaustion over [response]. *)
Definition handle_responses_stream_response (model : string)
    (credentials : Credentials) (response : list StreamEvent)
    (prompt_messages : list PromptMessage) (tools : list PromptMessageTool)
    : list (LLMResultChunk LLMUsage) :=
  let '(st, chunks) := run_events model prompt_messages initial_state response in
  chunks ++ [terminal_chunk model credentials prompt_messages tools st].

(** ** ResponseDecoder: [_handle_responses_response] *)

(** [_extract_response_text] *)
Definition extract_response_text (response : Response) : string :=
  let chunks :=
    flat_map (fun item =>
      let item_type := oi_type item in
      if String.eqb item_type "message" then
        flat_map (fun content =>
          let content_type := ocp_type content in
          if String.eqb content_type "output_text"
             || String.eqb content_type "text"
             || String.eqb content_type "input_text"
          then if PyStr.truthy (ocp_text content) then [ocp_text content] else []
          else []) (oi_content item)
      else if String.eqb item_type "output_text" || String.eqb item_type "text"
      then if PyStr.truthy (oi_text item) then [oi_text item] else []
      else []) (resp_output response) in
  PyStr.concat_all chunks.

(** [_extract_response_tool_calls] *)
Definition extract_response_tool_calls (response : Response) : list ToolCall :=
  flat_map (fun item =>
    if negb (String.eqb (oi_type item) "function_call") then []
    else
      let function_name := oi_name item in
      if negb (PyStr.truthy function_name) then []
      else
        let arguments :=
          match oi_arguments item with
          | ArgsAbsent => "{}"
          | ArgsStr s => s
          | ArgsDict d => json_dumps d
          | ArgsOther => "{}"
          end in
        let call_id := PyStr.or_else (oi_call_id item) (oi_id item) in
        [build_tool_call function_name call_id arguments])
    (resp_output response).

(** [_handle_responses_response] *)
Definition handle_responses_response (model : string) (credentials : Credentials)
    (response : Response) (prompt_messages : list PromptMessage)
    (tools : list PromptMessageTool) : LLMResult LLMUsage :=
  let content :=
    match resp_output_text response with
    | Some text => if PyStr.truthy text then text else extract_response_text response
    | None => extract_response_text response
    end in
  let tool_calls := extract_response_tool_calls response in
  let assistant_prompt_message :=
    AssistantPromptMessage (ContentStr content) tool_calls in
  let usage :=
    fst (build_usage model credentials (Some response) prompt_messages
           assistant_prompt_message tools) in
  {| r_model := default model (resp_model response);
     r_prompt_messages := prompt_messages;
     r_message := assistant_prompt_message;
     r_usage := usage;
     r_system_fingerprint := resp_id response |}.

(** ** MessageEncoder: tools *)

(** The schema [{"type": "object", "properties": {}}]. *)
Definition empty_object_schema : PyVal :=
  PDict [("type", PStr "object"); ("properties", PDict [])].

(** [_convert_tool_to_response_tool]; [json_loads] is [None] when
    [json.loads] raises [JSONDecodeError]. *)
Definition convert_tool_to_response_tool (tool : PromptMessageTool) : ResponseTool :=
  let parameters :=
    match pt_parameters tool with
    | PStr text =>
        match json_loads text with
        | Some value => value
        | None => empty_object_schema
        end
    | PDict kv => PDict kv
    | _ => empty_object_schema
    end in
  {| rt_type := "function";
     rt_name := pt_name tool;
     rt_description := PyStr.or_else (pt_description tool) "";
     rt_parameters := parameters |}.

(** ** MessageEncoder: the request payload *)

(** The values of [model_parameters] are opaque; the code only tests
    their truth value. *)
Variable ParamValue : Type.
Variable param_truthy : ParamValue -> bool.

(** A value of the payload dictionary. *)
Inductive PayloadValue :=
| PayInput (entries : list InputEntry)
| PayParam (value : ParamValue)
| PayReasoning (effort : ParamValue)
| PayText (verbosity : ParamValue)
| PayTools (tools : list ResponseTool)
| PayToolChoice (choice : string)
| PayStop (stop : list string).

(** [_build_responses_payload]; [tools] and [stop] are the empty list for
    [None].  [user] is accepted and not used. *)
Definition build_responses_payload (prompt_messages : list PromptMessage)
    (model_parameters : gmap string ParamValue)
    (tools : list PromptMessageTool) (stop : list string)
    (user : option string) : gmap string PayloadValue :=
  let payload : gmap string PayloadValue :=
    {[ "input" :=
         PayInput (convert_prompt_messages_to_responses_input prompt_messages) ]} in
  let payload :=
    match model_parameters !! "temperature" with
    | Some value => <["temperature" := PayParam value]> payload
    | None => payload
    end in
  let payload :=
    match model_parameters !! "top_p" with
    | Some value => <["top_p" := PayParam value]> payload
    | None => payload
    end in
  let payload :=
    match model_parameters !! "max_tokens" with
    | Some value => <["max_output_tokens" := PayParam value]> payload
    | None =>
        match model_parameters !! "max_completion_tokens" with
        | Some value => <["max_output_tokens" := PayParam value]> payload
        | None => payload
        end
    end in
  let payload :=
    match model_parameters !! "reasoning_effort" with
    | Some reasoning_effort =>
        if param_truthy reasoning_effort
        then <["reasoning" := PayReasoning reasoning_effort]> payload
        else payload
    | None => payload
    end in
  let payload :=
    match model_parameters !! "verbosity" with
    | Some verbosity =>
        if param_truthy verbosity
        then <["text" := PayText verbosity]> payload
        else payload
    | None => payload
    end in
  let payload :=
    match tools with
    | [] => payload
    | _ =>
        <["tool_choice" := PayToolChoice "auto"]>
          (<["tools" := PayTools (map convert_tool_to_response_tool tools)]>
             payload)
    end in
  let payload :=
    match stop with
    | [] => payload
    | _ => <["stop" := PayStop stop]> payload
    end in
  payload.

(** The keys a payload can have. *)
Definition payload_keys : list string :=
  ["input"; "temperature"; "top_p"; "max_output_tokens"; "reasoning";
   "text"; "tools"; "tool_choice"; "stop"].

(** ** Notions used by the further statements *)

(** An event the loop passes over: a type it does not know, a text delta
    without text, or an output-item event without a function-call item. *)
Definition inert_event (event : StreamEvent) : bool :=
  let ty := ev_type event in
  if String.eqb ty "response.output_text.delta"
  then negb (PyStr.truthy (ev_delta event))
  else if String.eqb ty "response.output_item.added"
          || String.eqb ty "response.output_item.done"
  then match ev_item event with
       | Some item => negb (String.eqb (si_type item) "function_call")
       | None => true
       end
  else negb (String.eqb ty "response.function_call_arguments.delta"
             || String.eqb ty "response.function_call_arguments.done"
             || String.eqb ty "response.completed").

(** The response carried by the last completed event of a stream. *)
Definition last_completed (events : list StreamEvent) : option Response :=
  fold_left (fun acc event =>
    if String.eqb (ev_type event) "response.completed"
    then ev_response event else acc) events None.

(** A tool call with a type, a name, an id and arguments. *)
Definition well_formed_call (tc : ToolCall) : Prop :=
  tc_type tc = "function"
  /\ fn_name (tc_function tc) <> ""
  /\ tc_id tc <> ""
  /\ fn_arguments (tc_function tc) <> "".

(** The request entry that repeats a tool call as it is. *)
Definition entry_of_call (tc : ToolCall) : InputEntry :=
  FunctionCallEntry (tc_id tc) (fn_name (tc_function tc))
    (fn_arguments (tc_function tc)).

(** What every entry of an encoded request satisfies. *)
Definition well_formed_entry (entry : InputEntry) : Prop :=
  match entry with
  | RoleContent role content =>
      role = "user" \/ ((role = "developer" \/ role = "assistant") /\ content <> "")
  | RoleParts role parts => role = "user" /\ parts <> []
  | FunctionCallEntry _ _ arguments => arguments <> ""
  | FunctionCallOutputEntry _ _ => True
  end.

(** The tool results of a conversation, and those of a request. *)
Definition tool_results (messages : list PromptMessage) : list (string * string) :=
  omap (fun message =>
    match message with
    | ToolPromptMessage _ tool_call_id => Some (tool_call_id, extract_text message)
    | _ => None
    end) messages.

Definition entry_tool_results (entries : list InputEntry) : list (string * string) :=
  omap (fun entry =>
    match entry with
    | FunctionCallOutputEntry call_id output => Some (call_id, output)
    | _ => None
    end) entries.

(** The local token count of the text of some messages alone. *)
Definition text_tokens (model : string) (credentials : Credentials)
    (prompt_messages : list PromptMessage) : nat :=
  get_num_tokens model credentials prompt_messages [].

(** A response with another list of output items. *)
Definition with_output (response : Response) (output : list OutputItem)
    : Response :=
  {| resp_output_text := resp_output_text response;
     resp_output := output;
     resp_usage := resp_usage response;
     resp_model := resp_model response;
     resp_id := resp_id response |}.

(** An item the decoder reads text from: a message, or a top-level text
    item. *)
Definition text_bearing (item : OutputItem) : bool :=
  String.eqb (oi_type item) "message"
  || String.eqb (oi_type item) "output_text"
  || String.eqb (oi_type item) "text".

(** The concatenation of the argument deltas of some events. *)
Definition argument_deltas (events : list StreamEvent) : string :=
  PyStr.concat_all (map ev_delta events).

(** ** Observations on chunks and streams, used by the statements *)

Definition chunk_index (c : LLMResultChunk LLMUsage) : nat :=
  d_index (ch_delta c).

Definition chunk_finish_reason (c : LLMResultChunk LLMUsage) : option string :=
  d_finish_reason (ch_delta c).

(** The tool calls a chunk carries. *)
Definition chunk_tool_calls (c : LLMResultChunk LLMUsage) : list ToolCall :=
  match d_message (ch_delta c) with
  | AssistantPromptMessage _ tcs => tcs
  | _ => []
  end.

(** The text a chunk carries. *)
Definition chunk_text (c : LLMResultChunk LLMUsage) : string :=
  match d_message (ch_delta c) with
  | AssistantPromptMessage (ContentStr text) _ => text
  | _ => ""
  end.

(** The text of the text-delta events of a stream, in order. *)
Definition text_delta_of (event : StreamEvent) : string :=
  if String.eqb (ev_type event) "response.output_text.delta"
  then ev_delta event else "".

Definition text_deltas (events : list StreamEvent) : string :=
  PyStr.concat_all (map text_delta_of events).

(** The item of an output-item-done event that finalizes a tool call: a
    function-call item with a non-empty function name. *)
Definition finalized_item (event : StreamEvent) : option StreamItem :=
  if String.eqb (ev_type event) "response.output_item.done" then
    match ev_item event with
    | Some item =>
        if String.eqb (si_type item) "function_call" && PyStr.truthy (si_name item)
        then Some item else None
    | None => None
    end
  else None.

Definition finalized_items (events : list StreamEvent) : list StreamItem :=
  omap finalized_item events.

(** A finalized tool call stems from an item: same function name, and the
    item's call id (or the name, for want of one) as id. *)
Definition call_of_item (tc : ToolCall) (item : StreamItem) : Prop :=
  fn_name (tc_function tc) = si_name item
  /\ tc_id tc = PyStr.or_else (si_call_id item) (si_name item).

(** [event] announces the function call [call_id]. *)
Definition announces (call_id : string) (event : StreamEvent) : Prop :=
  ev_type event = "response.output_item.added"
  /\ exists item,
       ev_item event = Some item
       /\ si_type item = "function_call"
       /\ si_call_id item = call_id.

(** [event] is an output-item-done event for the function call [call_id]. *)
Definition completes (call_id : string) (event : StreamEvent) : Prop :=
  ev_type event = "response.output_item.done"
  /\ exists item,
       ev_item event = Some item
       /\ si_type item = "function_call"
       /\ si_call_id item = call_id.

(** The state with another pending map. *)
Definition with_pending (st : StreamState)
    (pending : gmap string PendingToolCall) : StreamState :=
  {| full_text := full_text st;
     index := index st;
     tool_calls := tool_calls st;
     pending_tool_calls := pending;
     current_tool_call := current_tool_call st;
     final_response := final_response st |}.

(** The three shapes of a chunk: a text delta, one finalized tool call, or
    the terminal chunk. *)
Definition chunk_shape (model : string) (pms : list PromptMessage)
    (c : LLMResultChunk LLMUsage) : Prop :=
  ch_model c = model
  /\ ch_prompt_messages c = pms
  /\ ((chunk_finish_reason c = None /\ chunk_text c <> ""
       /\ chunk_tool_calls c = [])
      \/ (chunk_finish_reason c = None /\ chunk_text c = ""
          /\ exists tc, chunk_tool_calls c = [tc] /\ well_formed_call tc)
      \/ ((exists reason, chunk_finish_reason c = Some reason)
          /\ chunk_text c = "" /\ chunk_tool_calls c = [])).

(** The current call, when there is one, is a pending call with a
    non-empty id. *)
Definition current_is_pending (st : StreamState) : Prop :=
  match current_tool_call st with
  | Some call_id =>
      call_id <> "" /\ is_Some (pending_tool_calls st !! call_id)
  | None => True
  end.

(** ** The stream assembler numbers its chunks and ends with one
       terminal chunk *)

(** Case analysis on the type of an event, in the order of the tests of
    the loop body; in each case the type is replaced by its literal. *)
Ltac on_event_type ty lit :=
  destruct (String.eqb ty lit) eqn:?;
  [ match goal with
    | H : String.eqb ty lit = true |- _ => apply String.eqb_eq in H; subst ty
    end; simpl
  | ].

Ltac event_type_cases ty :=
  on_event_type ty "response.output_text.delta";
  [ | on_event_type ty "response.output_item.added";
      [ | on_event_type ty "response.function_call_arguments.delta";
          [ | on_event_type ty "response.function_call_arguments.done";
              [ | on_event_type ty "response.output_item.done";
                  [ | on_event_type ty "response.completed" ] ] ] ] ].

(** Lookups in a payload built by successive insertions. *)
Ltac payload_lookup :=
  unfold build_responses_payload;
  repeat case_match;
  repeat first
    [ rewrite lookup_insert_eq
    | rewrite lookup_insert_ne by done
    | rewrite lookup_singleton_eq
    | rewrite lookup_singleton_ne by done ];
  try done.

(** ** Strings *)

Lemma sapp_cons c s t : String c s +:+ t = String c (s +:+ t).
Proof. reflexivity. Qed.

Lemma sapp_nil_r s : s +:+ "" = s.
Proof. induction s as [|c s IH]; [done | by rewrite sapp_cons, IH]. Qed.

Lemma sapp_assoc s t u : (s +:+ t) +:+ u = s +:+ (t +:+ u).
Proof. induction s as [|c s IH]; [done | by rewrite !sapp_cons, IH]. Qed.

Lemma truthy_true s : PyStr.truthy s = true <-> s <> "".
Proof. destruct s; simpl; split; congruence. Qed.

Lemma truthy_false s : PyStr.truthy s = false <-> s = "".
Proof. destruct s; simpl; split; congruence. Qed.

Lemma or_else_truthy a b : a <> "" -> PyStr.or_else a b = a.
Proof. intros H. unfold PyStr.or_else. by destruct a. Qed.

Lemma rstrip_nonspace_head c s :
  PyStr.isspace c = false -> PyStr.truthy (PyStr.rstrip (String c s)) = true.
Proof. intros H. simpl. rewrite H, andb_false_r. done. Qed.

Lemma strip_blank s :
  PyStr.truthy (PyStr.strip s) = negb (PyStr.all_space s).
Proof.
  unfold PyStr.strip. induction s as [|c s IH]; [done|].
  cbn [PyStr.lstrip PyStr.all_space].
  destruct (PyStr.isspace c) eqn:Hc; [exact IH|].
  by rewrite rstrip_nonspace_head.
Qed.

Lemma step_indices model pms st ev :
  let '(st', out) := step model pms st ev in
  map chunk_index out = seq (index st) (length out)
  /\ index st' = index st + length out
  /\ Forall (fun c => chunk_finish_reason c = None) out.
Proof.
  unfold step.
  repeat case_match; simplify_eq; simpl;
    repeat split; try lia; try done; repeat constructor.
Qed.

Lemma run_events_indices model pms events : forall st,
  let '(st', out) := run_events model pms st events in
  map chunk_index out = seq (index st) (length out)
  /\ index st' = index st + length out
  /\ Forall (fun c => chunk_finish_reason c = None) out.
Proof.
  induction events as [|ev rest IH]; intros st; simpl.
  - repeat split; [lia | constructor].
  - pose proof (step_indices model pms st ev) as Hs.
    destruct (step model pms st ev) as [st1 out1].
    specialize (IH st1).
    destruct (run_events model pms st1 rest) as [st2 out2].
    destruct Hs as (Hm1 & Hi1 & Hf1), IH as (Hm2 & Hi2 & Hf2).
    rewrite map_app, length_app, seq_app, Hm1, Hm2, Hi1.
    repeat split; [lia | by apply Forall_app].
Qed.

(** C1. The chunks of any stream are numbered 0, 1, 2, ... in order; all
    chunks but the last carry no finish reason; the last one carries a
    finish reason, empty text, no tool call and the usage; and the empty
    stream yields exactly that terminal chunk, at index 0. *)
Theorem stream_chunks_indexed_and_terminated :
  forall model credentials (response : list StreamEvent) prompt_messages tools,
    let chunks :=
      handle_responses_stream_response model credentials response
        prompt_messages tools in
    map chunk_index chunks = seq 0 (length chunks)
    /\ (exists body final,
          chunks = body ++ [final]
          /\ Forall (fun c => chunk_finish_reason c = None) body
          /\ (exists reason, chunk_finish_reason final = Some reason)
          /\ chunk_text final = ""
          /\ chunk_tool_calls final = []
          /\ (exists usage, d_usage (ch_delta final) = Some usage))
    /\ (exists final,
          handle_responses_stream_response model credentials []
            prompt_messages tools = [final]
          /\ chunk_index final = 0
          /\ (exists reason, chunk_finish_reason final = Some reason)
          /\ chunk_text final = ""
          /\ (exists usage, d_usage (ch_delta final) = Some usage)).
Proof.
  intros model credentials response pms tools chunks. subst chunks.
  unfold handle_responses_stream_response.
  pose proof (run_events_indices model pms response initial_state) as H.
  destruct (run_events model pms initial_state response) as [st out] eqn:Hrun.
  destruct H as (Hm & Hi & Hf). simpl in Hm, Hi.
  split; [|split].
  - rewrite map_app, length_app, seq_app, Hm. simpl.
    unfold chunk_index at 1. simpl. by rewrite Hi.
  - exists out, (terminal_chunk model credentials pms tools st).
    repeat split; eauto.
  - simpl. eexists. repeat split; eauto.
Qed.

(** ** What the loop accumulates *)

Lemma step_accumulates model pms st ev :
  let '(st', out) := step model pms st ev in
  full_text st' = full_text st +:+ text_delta_of ev
  /\ tool_calls st' = tool_calls st ++ flat_map chunk_tool_calls out
  /\ Forall2 call_of_item (flat_map chunk_tool_calls out)
       (option_list (finalized_item ev)).
Proof.
  destruct ev as [ty delta iid [[ity icid iname iargs]|] args resp];
    unfold step, text_delta_of, finalized_item; simpl;
    try destruct (String.eqb ity "function_call") eqn:?;
    try destruct (PyStr.truthy iname) eqn:?;
    destruct (PyStr.truthy delta) eqn:Hdelta;
    try (apply truthy_false in Hdelta; subst delta);
    event_type_cases ty;
    repeat case_match; simplify_eq; simpl in *;
    rewrite ?app_nil_r, ?sapp_nil_r; repeat split; try done;
    repeat constructor.
Qed.

Lemma run_events_accumulates model pms events : forall st,
  let '(st', out) := run_events model pms st events in
  full_text st' = full_text st +:+ text_deltas events
  /\ tool_calls st' = tool_calls st ++ flat_map chunk_tool_calls out
  /\ Forall2 call_of_item (flat_map chunk_tool_calls out)
       (finalized_items events).
Proof.
  induction events as [|ev rest IH]; intros st; simpl.
  - rewrite sapp_nil_r, app_nil_r. repeat split; constructor.
  - pose proof (step_accumulates model pms st ev) as Hs.
    destruct (step model pms st ev) as [st1 out1].
    specialize (IH st1).
    destruct (run_events model pms st1 rest) as [st2 out2].
    destruct Hs as (Ht1 & Hc1 & Hf1), IH as (Ht2 & Hc2 & Hf2).
    rewrite flat_map_app.
    unfold text_deltas in *. simpl.
    rewrite Ht2, Ht1, Hc2, Hc1, sapp_assoc, app_assoc.
    repeat split.
    unfold finalized_items. simpl.
    destruct (finalized_item ev); simpl in *.
    + change (s :: omap finalized_item rest) with ([s] ++ omap finalized_item rest).
      by apply Forall2_app.
    + inversion Hf1 as [Hnil|]. simpl. exact Hf2.
Qed.

(** C4. The finish reason of the terminal chunk is "tool_calls" exactly
    when the stream finalized at least one tool call and the text
    accumulated from its text deltas is empty or all whitespace; it is
    "stop" in every other case.  The finalized tool calls are those of the
    output-item-done events of function-call items with a name, and the
    accumulated text is the concatenation of the text deltas. *)
Theorem finish_reason_tool_calls_iff_calls_and_blank_text :
  forall model credentials (response : list StreamEvent) prompt_messages tools,
    let st := fst (run_events model prompt_messages initial_state response) in
    full_text st = text_deltas response
    /\ length (tool_calls st) = length (finalized_items response)
    /\ exists body final,
         handle_responses_stream_response model credentials response
           prompt_messages tools = body ++ [final]
         /\ chunk_finish_reason final =
              Some (if match tool_calls st with [] => false | _ => true end
                       && PyStr.all_space (full_text st)
                    then "tool_calls" else "stop")
         /\ chunk_finish_reason final =
              Some (if match finalized_items response with [] => false | _ => true end
                       && PyStr.all_space (text_deltas response)
                    then "tool_calls" else "stop").
Proof.
  intros model credentials response pms tools st. subst st.
  unfold handle_responses_stream_response.
  pose proof (run_events_accumulates model pms response initial_state) as H.
  destruct (run_events model pms initial_state response) as [st out].
  destruct H as (Ht & Hc & Hf). simpl in Ht, Hc |- *.
  apply Forall2_length in Hf. rewrite <- Hc in Hf.
  assert (Hfin : chunk_finish_reason (terminal_chunk model credentials pms tools st)
                 = Some (if match tool_calls st with [] => false | _ => true end
                            && PyStr.all_space (full_text st)
                         then "tool_calls" else "stop")).
  { unfold chunk_finish_reason, terminal_chunk, finish_reason_of. simpl.
    by rewrite strip_blank, negb_involutive. }
  repeat split; try done.
  exists out, (terminal_chunk model credentials pms tools st).
  repeat split; try done.
  rewrite Hfin, Ht.
  destruct (tool_calls st), (finalized_items response); simpl in Hf; try done.
Qed.

(** ** The pending map *)

(** The empty string is never a key of the pending map. *)
Lemma step_no_empty_key model pms st ev :
  pending_tool_calls st !! "" = None ->
  pending_tool_calls (fst (step model pms st ev)) !! "" = None.
Proof.
  intros H.
  destruct ev as [ty delta iid [[ity icid iname iargs]|] args resp];
    unfold step, known_call, resolve_call_id; simpl;
    event_type_cases ty;
    repeat case_match; simplify_eq; simpl in *; try done;
    try (rewrite lookup_delete_None; by right);
    rewrite lookup_insert_ne; try done;
    intros Heq; subst; simpl in *; congruence.
Qed.

Lemma run_events_no_empty_key model pms events : forall st,
  pending_tool_calls st !! "" = None ->
  pending_tool_calls (fst (run_events model pms st events)) !! "" = None.
Proof.
  induction events as [|ev rest IH]; intros st H; simpl; [done|].
  pose proof (step_no_empty_key model pms st ev H) as Hs.
  destruct (step model pms st ev) as [st1 out1].
  specialize (IH st1 Hs).
  by destruct (run_events model pms st1 rest) as [st2 out2].
Qed.

Lemma reachable_no_empty_key model pms events :
  pending_tool_calls (fst (run_events model pms initial_state events)) !! "" = None.
Proof. apply run_events_no_empty_key. apply lookup_empty. Qed.

(** What an output-item-done event of a named function-call item does. *)
Lemma step_item_done model pms st ev item :
  ev_type ev = "response.output_item.done" ->
  ev_item ev = Some item ->
  si_type item = "function_call" ->
  si_name item <> "" ->
  pending_tool_calls st !! "" = None ->
  let tc := build_tool_call (si_name item) (si_call_id item)
              (effective_arguments (pending_tool_calls st) item) in
  step model pms st ev =
    ({| full_text := full_text st;
        index := index st + 1;
        tool_calls := tool_calls st ++ [tc];
        pending_tool_calls := delete (si_call_id item) (pending_tool_calls st);
        current_tool_call :=
          if decide (Some (si_call_id item) = current_tool_call st) then None
          else current_tool_call st;
        final_response := final_response st |},
     [ {| ch_model := model;
          ch_prompt_messages := pms;
          ch_system_fingerprint := si_call_id item;
          ch_delta :=
            {| d_index := index st;
               d_message := AssistantPromptMessage (ContentStr "") [tc];
               d_finish_reason := None;
               d_usage := None |} |} ])
  /\ fn_arguments (tc_function tc) = effective_arguments (pending_tool_calls st) item.
Proof.
  intros Hty Hit Hfc Hname Hempty tc.
  assert (Hargs : effective_arguments (pending_tool_calls st) item <> "").
  { unfold effective_arguments. repeat case_match; try done;
      by apply truthy_true. }
  split.
  - subst tc. unfold step. rewrite Hty, Hit, Hfc. simpl.
    apply truthy_true in Hname. rewrite Hname.
    unfold known_call, effective_arguments, PyStr.or_else.
    destruct (PyStr.truthy (si_call_id item)) eqn:Hc.
    + destruct (pending_tool_calls st !! si_call_id item); done.
    + apply truthy_false in Hc. rewrite Hc, Hempty. done.
  - subst tc. simpl. by apply or_else_truthy.
Qed.

Lemma run_events_app model pms evs1 evs2 : forall st,
  run_events model pms st (evs1 ++ evs2) =
    let '(st1, out1) := run_events model pms st evs1 in
    let '(st2, out2) := run_events model pms st1 evs2 in
    (st2, out1 ++ out2).
Proof.
  induction evs1 as [|ev rest IH]; intros st; simpl.
  - by destruct (run_events model pms st evs2).
  - destruct (step model pms st ev) as [st1 out1]. rewrite IH.
    destruct (run_events model pms st1 rest) as [st2 out2].
    destruct (run_events model pms st2 evs2) as [st3 out3].
    by rewrite app_assoc.
Qed.

Lemma run_events_snoc model pms evs ev st :
  fst (run_events model pms st (evs ++ [ev])) =
    fst (step model pms (fst (run_events model pms st evs)) ev).
Proof.
  rewrite run_events_app.
  destruct (run_events model pms st evs) as [st1 out1]. simpl.
  by destruct (step model pms st1 ev).
Qed.

(** An announcement enters the call in the pending map, with an empty
    buffer, and makes it the current call. *)
Lemma step_announce model pms st ev cid :
  cid <> "" -> announces cid ev ->
  let st' := fst (step model pms st ev) in
  p_arguments <$> pending_tool_calls st' !! cid = Some ""
  /\ current_tool_call st' = Some cid
  /\ tool_calls st' = tool_calls st.
Proof.
  intros Hcid (Hty & item & Hit & Hfc & Hc).
  unfold step. rewrite Hty, Hit, Hfc, Hc. simpl.
  apply truthy_true in Hcid. rewrite Hcid. simpl.
  by rewrite lookup_insert_eq.
Qed.




Lemma run_events_fst_app model pms evs1 evs2 st :
  fst (run_events model pms st (evs1 ++ evs2)) =
    fst (run_events model pms (fst (run_events model pms st evs1)) evs2).
Proof.
  rewrite run_events_app.
  destruct (run_events model pms st evs1) as [st1 out1]. simpl.
  by destruct (run_events model pms st1 evs2).
Qed.

Lemma run_events_fst_cons model pms ev evs st :
  fst (run_events model pms st (ev :: evs)) =
    fst (run_events model pms (fst (step model pms st ev)) evs).
Proof.
  simpl. destruct (step model pms st ev) as [st1 out1]. simpl.
  by destruct (run_events model pms st1 evs).
Qed.

(** C3 (amended). At an output-item-done event of a function-call item
    with a non-empty name, reached after any stream, one tool call is
    finalized and yielded; its arguments are the buffered arguments when
    the item's call id is known to the pending map and the buffer is not
    empty, else the item's own arguments when not empty, else ["{}"]. *)
Theorem finalized_arguments_follow_table :
  forall model prompt_messages (before : list StreamEvent) event item,
    ev_type event = "response.output_item.done" ->
    ev_item event = Some item ->
    si_type item = "function_call" ->
    si_name item <> "" ->
    let st := fst (run_events model prompt_messages initial_state before) in
    let st' := fst (step model prompt_messages st event) in
    let out := snd (step model prompt_messages st event) in
    exists tc,
      tool_calls st' = tool_calls st ++ [tc]
      /\ flat_map chunk_tool_calls out = [tc]
      /\ fn_name (tc_function tc) = si_name item
      /\ fn_arguments (tc_function tc) =
           effective_arguments (pending_tool_calls st) item.
Proof.
  intros model pms before event item Hty Hit Hfc Hname st st' out.
  pose proof (reachable_no_empty_key model pms before) as Hempty.
  destruct (step_item_done model pms st event item Hty Hit Hfc Hname Hempty)
    as [Hstep Hargs].
  subst st' out. rewrite Hstep. simpl.
  eexists. repeat split. exact Hargs.
Qed.


(** ** Calls that are announced and never completed *)

Lemma step_keeps_pending model pms st ev cid :
  is_Some (pending_tool_calls st !! cid) ->
  ~ completes cid ev ->
  is_Some (pending_tool_calls (fst (step model pms st ev)) !! cid).
Proof.
  intros Hin Hnot.
  destruct ev as [ty delta iid [[ity icid iname iargs]|] args resp];
    unfold step; simpl;
    event_type_cases ty;
    repeat case_match; simplify_eq; simpl in *; try done;
    try (rewrite lookup_insert; case_decide; [by eexists | done]).
  all: rewrite lookup_delete_ne; [done|].
  all: intros ->; apply Hnot; split; [done|].
  all: eexists; repeat split; simpl.
  all: match goal with
       | H : negb (String.eqb _ _) = false |- _ =>
           apply negb_false_iff, String.eqb_eq in H; exact H
       end.
Qed.

Lemma run_events_keeps_pending model pms cid events : forall st,
  is_Some (pending_tool_calls st !! cid) \/ Exists (announces cid) events ->
  cid <> "" ->
  Forall (fun e => ~ completes cid e) events ->
  is_Some (pending_tool_calls (fst (run_events model pms st events)) !! cid).
Proof.
  induction events as [|ev rest IH]; intros st Hor Hcid Hall.
  - simpl. destruct Hor as [H|H]; [done | by inversion H].
  - inversion Hall as [|? ? Hev Hrest]; subst.
    rewrite run_events_fst_cons. apply IH; [|done|done].
    destruct Hor as [Hin|Hex].
    + left. by apply step_keeps_pending.
    + inversion Hex as [? ? Hann|? ? Hex']; subst; [|by right].
      left. destruct (step_announce model pms st ev cid Hcid Hann) as (Hbuf & _).
      destruct (pending_tool_calls (step model pms st ev).1 !! cid);
        [by eexists | done].
Qed.

Lemma finalized_items_not_completed cid events :
  Forall (fun e => ~ completes cid e) events ->
  Forall (fun item => si_call_id item <> cid) (finalized_items events).
Proof.
  induction 1 as [|ev rest Hev Hrest IH]; [constructor|].
  unfold finalized_items. simpl.
  destruct (finalized_item ev) as [item|] eqn:Hfin; [|exact IH].
  constructor; [|exact IH].
  intros Heq. apply Hev. unfold finalized_item in Hfin.
  destruct (String.eqb (ev_type ev) "response.output_item.done") eqn:Hty; [|done].
  destruct (ev_item ev) as [item'|] eqn:Hit; [|done].
  destruct (String.eqb (si_type item') "function_call") eqn:Hfc; [|done].
  destruct (PyStr.truthy (si_name item')); simpl in Hfin; [|done].
  simplify_eq.
  apply String.eqb_eq in Hty, Hfc.
  split; [done|]. by exists item.
Qed.

(** C10. A function call that is announced with a call id and for which
    no output-item-done event arrives is dropped: when the stream ends it
    is still in the pending map; every finalized tool call, and every tool
    call carried by a chunk, stems from an output-item-done event of
    another call id; the terminal chunk carries no tool call and does not
    depend on the pending map; and the finish reason counts only the
    finalized items. *)
Theorem abandoned_call_is_dropped :
  forall model credentials (response : list StreamEvent) prompt_messages tools
         call_id,
    call_id <> "" ->
    Exists (announces call_id) response ->
    Forall (fun e => ~ completes call_id e) response ->
    let st := fst (run_events model prompt_messages initial_state response) in
    let out := snd (run_events model prompt_messages initial_state response) in
    let final := terminal_chunk model credentials prompt_messages tools st in
    is_Some (pending_tool_calls st !! call_id)
    /\ Forall (fun item => si_call_id item <> call_id) (finalized_items response)
    /\ Forall2 call_of_item (tool_calls st) (finalized_items response)
    /\ flat_map chunk_tool_calls out = tool_calls st
    /\ handle_responses_stream_response model credentials response
         prompt_messages tools = out ++ [final]
    /\ chunk_tool_calls final = []
    /\ (forall pending,
          terminal_chunk model credentials prompt_messages tools
            (with_pending st pending) = final)
    /\ chunk_finish_reason final =
         Some (if match finalized_items response with [] => false | _ => true end
                  && PyStr.all_space (text_deltas response)
               then "tool_calls" else "stop").
Proof.
  intros model credentials response pms tools cid Hcid Hann Hnot st out final.
  pose proof (run_events_keeps_pending model pms cid response initial_state
                (or_intror Hann) Hcid Hnot) as Hpend.
  pose proof (run_events_accumulates model pms response initial_state) as Hacc.
  subst st out final. unfold handle_responses_stream_response.
  destruct (run_events model pms initial_state response) as [st out].
  destruct Hacc as (Ht & Hc & Hf). simpl in *.
  rewrite <- Hc in Hf.
  repeat split; try done.
  - by apply finalized_items_not_completed.
  - unfold chunk_finish_reason, terminal_chunk, finish_reason_of. simpl.
    rewrite strip_blank, negb_involutive, Ht.
    apply Forall2_length in Hf.
    destruct (tool_calls st), (finalized_items response); simpl in Hf; done.
Qed.

(** ** Usage resolution *)

Lemma count_or_reported a b :
  match reported_count a b with
  | Some n => count_or a b = n /\ (n =? 0)%Z = false
  | None => count_or a b = 0%Z
  end.
Proof.
  unfold count_or, reported_count, nonzero_count.
  destruct a as [n|], b as [m|]; simpl;
    try destruct (Z.eqb_spec n 0); try destruct (Z.eqb_spec m 0);
    subst; simpl; try done; split; try done; by apply Z.eqb_neq.
Qed.

(** C8. The two counts handed to the pricing are, each on its own, the
    count the remote side reported under either of its two field names
    when the usage object is present and that count is not zero, and
    otherwise the local token count: of the prompt messages with the tools
    for the prompt side, of the assembled assistant message for the
    completion side.  [get_num_tokens] is called exactly for the counts
    that were missing or zero. *)
Theorem usage_prefers_reported_counts :
  forall model credentials response prompt_messages assistant_prompt_message tools,
    let local_prompt := call_get_num_tokens model credentials prompt_messages tools in
    let local_completion :=
      call_get_num_tokens model credentials [assistant_prompt_message] [] in
    let prompt :=
      match reported_prompt_tokens response with
      | Some n => (n, [])
      | None => local_prompt
      end in
    let completion :=
      match reported_completion_tokens response with
      | Some n => (n, [])
      | None => local_completion
      end in
    usage_counts model credentials response prompt_messages
      assistant_prompt_message tools
      = ((fst prompt, fst completion), snd prompt ++ snd completion)
    /\ build_usage model credentials response prompt_messages
         assistant_prompt_message tools
       = (calc_response_usage model credentials (fst prompt) (fst completion),
          snd prompt ++ snd completion)
    /\ snd local_prompt = [mkNumTokensCall prompt_messages tools]
    /\ snd local_completion = [mkNumTokensCall [assistant_prompt_message] []].
Proof.
  intros model credentials response pms amsg tools.
  assert (Hcounts :
    usage_counts model credentials response pms amsg tools =
      ((fst match reported_prompt_tokens response with
            | Some n => (n, [])
            | None => call_get_num_tokens model credentials pms tools
            end,
        fst match reported_completion_tokens response with
            | Some n => (n, [])
            | None => call_get_num_tokens model credentials [amsg] []
            end),
       snd match reported_prompt_tokens response with
           | Some n => (n, [])
           | None => call_get_num_tokens model credentials pms tools
           end
       ++ snd match reported_completion_tokens response with
              | Some n => (n, [])
              | None => call_get_num_tokens model credentials [amsg] []
              end)).
  { unfold usage_counts, reported_prompt_tokens, reported_completion_tokens.
    destruct (response ≫= resp_usage) as [u|]; simpl; [|done].
    pose proof (count_or_reported (input_tokens u) (ru_prompt_tokens u)) as Hp.
    pose proof (count_or_reported (output_tokens u) (ru_completion_tokens u)) as Hc.
    destruct (reported_count (input_tokens u) (ru_prompt_tokens u)) as [n|];
      destruct (reported_count (output_tokens u) (ru_completion_tokens u)) as [m|];
      repeat match goal with
             | H : _ /\ _ |- _ => destruct H as [-> ->]
             | H : count_or _ _ = 0%Z |- _ => rewrite H
             end;
      done. }
  cbv zeta. split; [exact Hcounts|]. split; [|done].
  unfold build_usage. rewrite Hcounts. unfold cbind, cret. simpl.
  by rewrite app_nil_r.
Qed.

(** ** Round trip of a user text *)

(** C9. Encoding the single user message whose content is the string [s]
    gives the entry of role "user" and content [s]; decoding a one-shot
    response with no denormalized full text whose only output item is a
    message with one text-like content part holding [s] gives a turn
    whose assistant message has content [s] (and no tool call). *)
Theorem user_text_round_trip :
  forall (s : string) model credentials response prompt_messages tools item part,
    resp_output_text response = None ->
    resp_output response = [item] ->
    oi_type item = "message" ->
    oi_content item = [part] ->
    text_like (ocp_type part) = true ->
    ocp_text part = s ->
    convert_prompt_messages_to_responses_input [UserPromptMessage (ContentStr s)]
      = [RoleContent "user" s]
    /\ r_message (handle_responses_response model credentials response
                    prompt_messages tools)
       = AssistantPromptMessage (ContentStr s) [].
Proof.
  intros s model credentials response pms tools item part
    Hnone Hout Hty Hcontent Hlike Htext.
  split; [reflexivity|].
  unfold handle_responses_response, extract_response_text,
    extract_response_tool_calls.
  rewrite Hnone, Hout. simpl. rewrite Hty, Hcontent. simpl.
  unfold text_like in Hlike. rewrite Hlike, Htext.
  destruct s; simpl; [done|].
  by rewrite sapp_nil_r.
Qed.

(** ** Tool conversion *)

Lemma convert_tool_object_passes_through tool kv :
  pt_parameters tool = PDict kv ->
  rt_parameters (convert_tool_to_response_tool tool) = PDict kv.
Proof. intros H. unfold convert_tool_to_response_tool. by rewrite H. Qed.

Lemma convert_tool_invalid_json_degrades tool text :
  pt_parameters tool = PStr text ->
  json_loads text = None ->
  rt_parameters (convert_tool_to_response_tool tool) = empty_object_schema.
Proof. intros H1 H2. unfold convert_tool_to_response_tool. by rewrite H1, H2. Qed.

Lemma convert_tool_other_value_degrades tool :
  (forall text, pt_parameters tool <> PStr text) ->
  is_object (pt_parameters tool) = false ->
  rt_parameters (convert_tool_to_response_tool tool) = empty_object_schema.
Proof.
  intros H1 H2. unfold convert_tool_to_response_tool.
  destruct (pt_parameters tool); simpl in *; try done.
  by destruct (H1 s).
Qed.


(** ** Further properties of the stream assembler *)

Lemma build_tool_call_well_formed name call_id arguments :
  name <> "" -> well_formed_call (build_tool_call name call_id arguments).
Proof.
  intros Hname. unfold well_formed_call, build_tool_call, PyStr.or_else. simpl.
  repeat split; try done.
  - by destruct (PyStr.truthy call_id) eqn:E; [apply truthy_true|].
  - by destruct (PyStr.truthy arguments) eqn:E; [apply truthy_true|].
Qed.

Lemma step_chunks model pms st ev :
  let '(st', out) := step model pms st ev in
  Forall (chunk_shape model pms) out
  /\ PyStr.concat_all (map chunk_text out) = text_delta_of ev.
Proof.
  destruct ev as [ty delta iid [[ity icid iname iargs]|] args resp];
    unfold step, text_delta_of; simpl;
    try destruct (PyStr.truthy iname) eqn:Hname;
    destruct (PyStr.truthy delta) eqn:Hdelta;
    try (apply truthy_false in Hdelta; subst delta);
    event_type_cases ty;
    repeat case_match; simplify_eq; simpl in *;
    rewrite ?sapp_nil_r; (split; [|done]);
    try (by constructor);
    (constructor; [|by constructor]);
    (split; [done|]); (split; [done|]).
  all: first
    [ left; repeat split; try done; by apply truthy_true
    | right; left; split; [done|]; split; [done|];
      eexists; split; [reflexivity|];
      apply build_tool_call_well_formed; by apply truthy_true ].
Qed.

Lemma concat_all_app l1 l2 :
  PyStr.concat_all (l1 ++ l2) = PyStr.concat_all l1 +:+ PyStr.concat_all l2.
Proof.
  induction l1 as [|x l1 IH]; [done|].
  simpl. by rewrite IH, sapp_assoc.
Qed.

Lemma run_events_chunks model pms events : forall st,
  let '(st', out) := run_events model pms st events in
  Forall (chunk_shape model pms) out
  /\ PyStr.concat_all (map chunk_text out) = text_deltas events.
Proof.
  induction events as [|ev rest IH]; intros st; simpl; [by split|].
  pose proof (step_chunks model pms st ev) as Hs.
  destruct (step model pms st ev) as [st1 out1].
  specialize (IH st1).
  destruct (run_events model pms st1 rest) as [st2 out2].
  destruct Hs as [Hf1 Ht1], IH as [Hf2 Ht2].
  split; [by apply Forall_app|].
  rewrite map_app, concat_all_app, Ht1, Ht2. done.
Qed.

(** X1. Concatenating the text of the chunks of a stream, in order, gives
    the concatenation of its text deltas: the text of the turn can be
    rebuilt from the chunks. *)
Theorem chunk_texts_rebuild_the_text :
  forall model credentials (response : list StreamEvent) prompt_messages tools,
    PyStr.concat_all
      (map chunk_text
         (handle_responses_stream_response model credentials response
            prompt_messages tools))
    = text_deltas response.
Proof.
  intros model credentials response pms tools.
  unfold handle_responses_stream_response.
  pose proof (run_events_chunks model pms response initial_state) as H.
  destruct (run_events model pms initial_state response) as [st out].
  destruct H as [_ Ht].
  rewrite map_app, concat_all_app, Ht. simpl.
  by rewrite sapp_nil_r.
Qed.


(** X3. The tool calls carried by the chunks of a stream, in order, are
    the finalized tool calls of the turn (those that enter the usage
    estimate); there is one per output-item-done event of a named
    function-call item, with that item's name and id, and each is well
    formed. *)
Theorem chunk_tool_calls_are_the_finalized_calls :
  forall model credentials (response : list StreamEvent) prompt_messages tools,
    let st := fst (run_events model prompt_messages initial_state response) in
    flat_map chunk_tool_calls
      (handle_responses_stream_response model credentials response
         prompt_messages tools)
    = tool_calls st
    /\ Forall2 call_of_item (tool_calls st) (finalized_items response)
    /\ Forall well_formed_call (tool_calls st).
Proof.
  intros model credentials response pms tools st. subst st.
  unfold handle_responses_stream_response.
  pose proof (run_events_accumulates model pms response initial_state) as Ha.
  pose proof (run_events_chunks model pms response initial_state) as Hc.
  destruct (run_events model pms initial_state response) as [st out].
  destruct Ha as (_ & Htc & Hitems), Hc as [Hshape _]. simpl in *.
  rewrite flat_map_app. simpl. rewrite app_nil_r, Htc.
  repeat split; [done|].
  clear Htc Hitems. induction Hshape as [|c out Hc _ IH]; [constructor|].
  simpl. apply Forall_app. split; [|exact IH].
  destruct Hc as (_ & _ & [(_ & _ & Hc)|[(_ & _ & tc & Hc & Hwf)|(_ & _ & Hc)]]);
    rewrite Hc; [constructor | | constructor].
  constructor; [exact Hwf | constructor].
Qed.

Lemma step_current_is_pending model pms st ev :
  current_is_pending st ->
  current_is_pending (fst (step model pms st ev)).
Proof.
  intros H.
  destruct ev as [ty delta iid [[ity icid iname iargs]|] args resp];
    unfold step, known_call, resolve_call_id; simpl;
    event_type_cases ty;
    repeat case_match; simplify_eq; simpl in *; try done;
    unfold current_is_pending in *; simpl in *;
    try match goal with
        | Hc : current_tool_call st = _ |- _ => rewrite Hc in *
        end;
    try done.
  all: try (split; [by apply truthy_true | by rewrite lookup_insert_eq; eexists]).
  all: destruct (current_tool_call st) as [cur|] eqn:Hcur; [|done].
  all: destruct H as [Hne Hin]; split; [done|].
  all: try (rewrite lookup_insert; case_decide; [by eexists | done]).
  all: rewrite lookup_delete_ne; [done | congruence].
Qed.

(** X4. After any stream, the call that argument events without an item
    id are routed to, when there is one, has a non-empty id and is still
    in the pending map. *)
Theorem current_call_is_always_pending :
  forall model prompt_messages (events : list StreamEvent),
    current_is_pending
      (fst (run_events model prompt_messages initial_state events)).
Proof.
  intros model pms events.
  assert (H : forall st, current_is_pending st ->
                current_is_pending (fst (run_events model pms st events))).
  { induction events as [|ev rest IH]; intros st Hst; [done|].
    rewrite run_events_fst_cons. apply IH. by apply step_current_is_pending. }
  by apply H.
Qed.

Lemma step_inert model pms st ev :
  inert_event ev = true -> step model pms st ev = (st, []).
Proof.
  destruct ev as [ty delta iid [[ity icid iname iargs]|] args resp];
    unfold step, inert_event; simpl;
    event_type_cases ty; simpl;
    repeat case_match; simplify_eq; simpl in *; try done.
Qed.

(** X5. Events the loop passes over (unknown types, text deltas without
    text, output-item events without a function-call item) can be removed
    from a stream without changing any chunk. *)
Theorem inert_events_change_nothing :
  forall model credentials (response : list StreamEvent) prompt_messages tools,
    handle_responses_stream_response model credentials
      (filter (fun e => inert_event e = false) response) prompt_messages tools
    = handle_responses_stream_response model credentials response
        prompt_messages tools.
Proof.
  intros model credentials response pms tools.
  unfold handle_responses_stream_response.
  assert (H : forall st,
    run_events model pms st (filter (fun e => inert_event e = false) response)
    = run_events model pms st response).
  { induction response as [|ev rest IH]; intros st; [done|].
    rewrite filter_cons. destruct (inert_event ev) eqn:Hin.
    - rewrite decide_False by done. simpl.
      rewrite (step_inert _ _ _ _ Hin). rewrite IH.
      by destruct (run_events model pms st rest).
    - rewrite decide_True by done. simpl.
      destruct (step model pms st ev) as [st1 out1]. by rewrite IH. }
  by rewrite H.
Qed.

Lemma step_final_response model pms st ev :
  final_response (fst (step model pms st ev)) =
    if String.eqb (ev_type ev) "response.completed"
    then ev_response ev else final_response st.
Proof.
  destruct ev as [ty delta iid [[ity icid iname iargs]|] args resp];
    unfold step; simpl;
    event_type_cases ty; simpl;
    repeat case_match; simplify_eq; simpl in *; try done.
Qed.

Lemma run_events_final_response model pms events : forall st,
  final_response (fst (run_events model pms st events)) =
    fold_left (fun acc event =>
      if String.eqb (ev_type event) "response.completed"
      then ev_response event else acc) events (final_response st).
Proof.
  induction events as [|ev rest IH]; intros st; [done|].
  rewrite run_events_fst_cons, IH, step_final_response. done.
Qed.

(** X6. The usage and the fingerprint of the terminal chunk come from the
    response of the last completed event of the stream: the usage is
    resolved against it, over the accumulated text and the finalized tool
    calls, and the fingerprint is its id. *)
Theorem terminal_chunk_uses_last_completed :
  forall model credentials (response : list StreamEvent) prompt_messages tools,
    let st := fst (run_events model prompt_messages initial_state response) in
    exists body final,
      handle_responses_stream_response model credentials response
        prompt_messages tools = body ++ [final]
      /\ d_usage (ch_delta final) =
           Some (fst (build_usage model credentials (last_completed response)
                        prompt_messages
                        (AssistantPromptMessage
                           (ContentStr (text_deltas response)) (tool_calls st))
                        tools))
      /\ ch_system_fingerprint final =
           match last_completed response with
           | Some r => resp_id r
           | None => ""
           end.
Proof.
  intros model credentials response pms tools st. subst st.
  unfold handle_responses_stream_response.
  pose proof (run_events_final_response model pms response initial_state) as Hf.
  pose proof (run_events_accumulates model pms response initial_state) as Ha.
  destruct (run_events model pms initial_state response) as [st out].
  destruct Ha as (Ht & _ & _). simpl in *.
  exists out, (terminal_chunk model credentials pms tools st).
  split; [done|].
  unfold terminal_chunk, last_completed. simpl. by rewrite Hf, Ht.
Qed.

(** X7. A stream without a completed event gets its usage from local
    token counts alone: the prompt messages with the tools on one side,
    the assembled assistant message on the other; its fingerprint is
    empty. *)
Theorem stream_without_completed_counts_locally :
  forall model credentials (response : list StreamEvent) prompt_messages tools,
    Forall (fun e => ev_type e <> "response.completed") response ->
    let st := fst (run_events model prompt_messages initial_state response) in
    exists body final,
      handle_responses_stream_response model credentials response
        prompt_messages tools = body ++ [final]
      /\ d_usage (ch_delta final) =
           Some (calc_response_usage model credentials
                   (Z.of_nat (get_num_tokens model credentials prompt_messages tools))
                   (Z.of_nat (get_num_tokens model credentials
                                [AssistantPromptMessage
                                   (ContentStr (text_deltas response))
                                   (tool_calls st)] [])))
      /\ ch_system_fingerprint final = "".
Proof.
  intros model credentials response pms tools Hnone st. subst st.
  assert (Hlast : forall acc,
    fold_left (fun acc event =>
      if String.eqb (ev_type event) "response.completed"
      then ev_response event else acc) response acc = acc).
  { induction Hnone as [|ev rest Hev _ IH]; intros acc; [done|].
    simpl. apply String.eqb_neq in Hev. by rewrite Hev. }
  unfold handle_responses_stream_response.
  pose proof (run_events_final_response model pms response initial_state) as Hf.
  pose proof (run_events_accumulates model pms response initial_state) as Ha.
  destruct (run_events model pms initial_state response) as [st out].
  destruct Ha as (Ht & _ & _). simpl in *.
  rewrite Hlast in Hf.
  exists out, (terminal_chunk model credentials pms tools st).
  split; [done|].
  unfold terminal_chunk. simpl. by rewrite Hf, Ht.
Qed.

(** Argument deltas for one call, by its id or by no id at all. *)
Lemma run_argument_deltas_append model pms cid deltas : forall st entry,
  Forall (fun e => ev_type e = "response.function_call_arguments.delta"
                   /\ (ev_item_id e = cid \/ ev_item_id e = "")) deltas ->
  cid <> "" ->
  pending_tool_calls st !! cid = Some entry ->
  current_tool_call st = Some cid ->
  let st' := fst (run_events model pms st deltas) in
  pending_tool_calls st' !! cid =
    Some {| p_name := p_name entry;
            p_arguments := p_arguments entry +:+ argument_deltas deltas |}
  /\ current_tool_call st' = Some cid
  /\ tool_calls st' = tool_calls st.
Proof.
  induction deltas as [|ev rest IH]; intros st entry Hall Hcid Hin Hcur.
  - simpl. unfold argument_deltas. simpl. rewrite sapp_nil_r.
    by destruct entry.
  - inversion Hall as [|? ? [Hty Hid] Hrest]; subst.
    cbv zeta. rewrite run_events_fst_cons.
    assert (Hres : resolve_call_id ev st = Some cid).
    { unfold resolve_call_id. destruct Hid as [-> | ->]; [|done].
      apply truthy_true in Hcid. by rewrite Hcid. }
    assert (Hstep :
      let st1 := fst (step model pms st ev) in
      pending_tool_calls st1 !! cid =
        Some {| p_name := p_name entry;
                p_arguments := p_arguments entry +:+ ev_delta ev |}
      /\ current_tool_call st1 = Some cid
      /\ tool_calls st1 = tool_calls st).
    { unfold step. rewrite Hty, Hres. simpl. unfold known_call.
      pose proof Hcid as Htr. apply truthy_true in Htr. rewrite Htr, Hin.
      destruct (PyStr.truthy (ev_delta ev)) eqn:Hd; simpl.
      - by rewrite lookup_insert_eq.
      - apply truthy_false in Hd. rewrite Hd, sapp_nil_r.
        by destruct entry. }
    destruct Hstep as (Hin1 & Hcur1 & Htc1).
    destruct (IH _ _ Hrest Hcid Hin1 Hcur1) as (Hin2 & Hcur2 & Htc2).
    simpl in Hin2. rewrite Hin2, Hcur2, Htc2, Htc1.
    unfold argument_deltas. simpl. by rewrite sapp_assoc.
Qed.

(** X8. After a call is announced, argument deltas addressed to it (by
    its id, or by no id while it is the current call) are appended to its
    buffer in order; with no arguments-done event, the tool call finalized
    by the following output-item-done event carries their concatenation
    when it is not empty, and the item's own arguments (or ["{}"]) when it
    is. *)
Theorem argument_deltas_accumulate :
  forall model prompt_messages (before deltas : list StreamEvent)
         announce item_done call_id item,
    call_id <> "" ->
    announces call_id announce ->
    Forall (fun e => ev_type e = "response.function_call_arguments.delta"
                     /\ (ev_item_id e = call_id \/ ev_item_id e = "")) deltas ->
    ev_type item_done = "response.output_item.done" ->
    ev_item item_done = Some item ->
    si_type item = "function_call" ->
    si_call_id item = call_id ->
    si_name item <> "" ->
    let st1 :=
      fst (run_events model prompt_messages initial_state
             (before ++ announce :: deltas)) in
    let st2 :=
      fst (run_events model prompt_messages initial_state
             (before ++ announce :: deltas ++ [item_done])) in
    p_arguments <$> pending_tool_calls st1 !! call_id
      = Some (argument_deltas deltas)
    /\ exists tc,
         tool_calls st2 = tool_calls st1 ++ [tc]
         /\ fn_arguments (tc_function tc) =
              if PyStr.truthy (argument_deltas deltas)
              then argument_deltas deltas
              else PyStr.or_else (si_arguments item) "{}".
Proof.
  intros model pms before deltas announce item_done cid item
    Hcid Hann Hdeltas Hity Hitem Hfc Hicid Hname st1 st2.
  assert (Hst2 : st2 = fst (step model pms st1 item_done)).
  { subst st1 st2.
    replace (before ++ announce :: deltas ++ [item_done])
      with ((before ++ announce :: deltas) ++ [item_done]).
    - apply run_events_snoc.
    - by rewrite <- app_assoc. }
  assert (Hbuf : p_arguments <$> pending_tool_calls st1 !! cid
                 = Some (argument_deltas deltas)).
  { subst st1.
    rewrite run_events_fst_app, run_events_fst_cons.
    set (st0 := fst (run_events model pms initial_state before)).
    destruct (step_announce model pms st0 announce cid Hcid Hann)
      as (Hempty & Hcur & _).
    destruct (pending_tool_calls (fst (step model pms st0 announce)) !! cid)
      as [entry|] eqn:Hentry; simpl in Hempty; [|done].
    injection Hempty as Hempty.
    destruct (run_argument_deltas_append model pms cid deltas _ entry
                Hdeltas Hcid Hentry Hcur) as (Hin & _ & _).
    rewrite Hin. simpl. by rewrite Hempty. }
  split; [exact Hbuf|].
  assert (Hempty : pending_tool_calls st1 !! "" = None).
  { subst st1. apply reachable_no_empty_key. }
  destruct (step_item_done model pms st1 item_done item Hity Hitem Hfc Hname Hempty)
    as [Hstep Hargs].
  rewrite Hst2, Hstep. simpl.
  eexists. split; [reflexivity|].
  rewrite Hargs. unfold effective_arguments. rewrite Hicid.
  destruct (pending_tool_calls st1 !! cid) as [entry|]; simpl in Hbuf; [|done].
  injection Hbuf as Hbuf. rewrite Hbuf. unfold PyStr.or_else.
  by destruct (PyStr.truthy (argument_deltas deltas)).
Qed.

(** ** Further properties of the decoder and of the encoder *)

(** X9. The tool calls decoded from a one-shot response are, in order,
    those of its function-call items with a non-empty name; each has type
    "function" and a non-empty name, id and arguments. *)
Theorem decoded_tool_calls_well_formed :
  forall response,
    Forall well_formed_call (extract_response_tool_calls response)
    /\ map (fun tc => fn_name (tc_function tc))
         (extract_response_tool_calls response)
       = map oi_name
           (filter (fun item => oi_type item = "function_call"
                                /\ oi_name item <> "")
              (resp_output response)).
Proof.
  intros response. unfold extract_response_tool_calls.
  induction (resp_output response) as [|item rest [IH1 IH2]]; [by split|].
  simpl. rewrite filter_cons.
  destruct (String.eqb_spec (oi_type item) "function_call") as [Hty|Hty]; simpl.
  - destruct (PyStr.truthy (oi_name item)) eqn:Hname; simpl.
    + apply truthy_true in Hname. rewrite decide_True by done.
      split; [|by rewrite IH2].
      constructor; [|exact IH1]. by apply build_tool_call_well_formed.
    + apply truthy_false in Hname.
      rewrite decide_False by (intros [_ H]; done). by split.
  - rewrite decide_False by (intros [H _]; done). by split.
Qed.

Lemma encode_well_formed_calls content tcs :
  Forall well_formed_call tcs ->
  convert_prompt_messages_to_responses_input
    [AssistantPromptMessage (ContentStr content) tcs]
  = (if PyStr.truthy content then [RoleContent "assistant" content] else [])
    ++ map entry_of_call tcs.
Proof.
  intros Hwf. unfold convert_prompt_messages_to_responses_input. simpl.
  rewrite app_nil_r. f_equal.
  induction Hwf as [|tc tcs (_ & _ & Hid & Hargs) _ IH]; [done|].
  simpl. rewrite IH. f_equal. unfold entry_of_call.
  by rewrite !or_else_truthy.
Qed.

Lemma final_tool_calls_well_formed model pms events :
  Forall well_formed_call
    (tool_calls (fst (run_events model pms initial_state events))).
Proof.
  pose proof (run_events_accumulates model pms events initial_state) as Ha.
  pose proof (run_events_chunks model pms events initial_state) as Hc.
  destruct (run_events model pms initial_state events) as [st out].
  destruct Ha as (_ & Htc & _), Hc as [Hshape _]. simpl in *.
  rewrite Htc. clear Htc.
  induction Hshape as [|c out Hc _ IH]; [constructor|].
  simpl. apply Forall_app. split; [|exact IH].
  destruct Hc as (_ & _ & [(_ & _ & Hc)|[(_ & _ & tc & Hc & Hwf)|(_ & _ & Hc)]]);
    rewrite Hc; [constructor | | constructor].
  constructor; [exact Hwf | constructor].
Qed.

(** X10. An assistant turn decoded from a one-shot response or assembled
    from a stream, sent back in the next request, is encoded as its text
    (when not empty) followed by one function-call entry per tool call
    with the id, the name and the arguments of the tool call unchanged. *)
Theorem decoded_turn_reencodes_unchanged :
  forall model prompt_messages (response : Response)
         (events : list StreamEvent) content,
    let decoded := extract_response_tool_calls response in
    let assembled :=
      tool_calls (fst (run_events model prompt_messages initial_state events)) in
    convert_prompt_messages_to_responses_input
      [AssistantPromptMessage (ContentStr content) decoded]
    = (if PyStr.truthy content then [RoleContent "assistant" content] else [])
      ++ map entry_of_call decoded
    /\ convert_prompt_messages_to_responses_input
         [AssistantPromptMessage (ContentStr content) assembled]
       = (if PyStr.truthy content then [RoleContent "assistant" content] else [])
         ++ map entry_of_call assembled.
Proof.
  intros model pms response events content decoded assembled. split.
  - apply encode_well_formed_calls.
    assert (H : forall items,
      Forall well_formed_call
        (flat_map (fun item =>
           if negb (String.eqb (oi_type item) "function_call") then []
           else
             if negb (PyStr.truthy (oi_name item)) then []
             else
               [build_tool_call (oi_name item)
                  (PyStr.or_else (oi_call_id item) (oi_id item))
                  match oi_arguments item with
                  | ArgsAbsent => "{}"
                  | ArgsStr s => s
                  | ArgsDict d => json_dumps d
                  | ArgsOther => "{}"
                  end]) items)).
    { induction items as [|item rest IH]; [constructor|].
      simpl. apply Forall_app. split; [|exact IH].
      destruct (negb _); [constructor|].
      destruct (PyStr.truthy (oi_name item)) eqn:Hname; [|constructor].
      constructor; [|constructor].
      apply build_tool_call_well_formed. by apply truthy_true. }
    apply H.
  - apply encode_well_formed_calls. apply final_tool_calls_well_formed.
Qed.

Lemma or_else_empty a : PyStr.or_else a "" = a.
Proof. by destruct a. Qed.

(** X11. Every entry of an encoded request is well formed: a text entry
    has role "user", or role "developer" or "assistant" and a non-empty
    content; a multi-part entry has role "user" and at least one part; a
    function-call entry has non-empty arguments. *)
Theorem encoded_entries_well_formed :
  forall prompt_messages,
    Forall well_formed_entry
      (convert_prompt_messages_to_responses_input prompt_messages).
Proof.
  intros pms. unfold convert_prompt_messages_to_responses_input.
  induction pms as [|message rest IH]; [constructor|].
  simpl. apply Forall_app. split; [|exact IH]. clear IH.
  destruct message as [c|c|c tcs|c id|c].
  - destruct (PyStr.truthy _) eqn:Ht; [|constructor].
    constructor; [|constructor]. simpl. right.
    split; [by left | by apply truthy_true].
  - destruct c as [text|items|].
    + constructor; [|constructor]. simpl. by left.
    + destruct (flat_map _ items) eqn:Hparts; [constructor|].
      constructor; [|constructor]. simpl. by split.
    + constructor.
  - apply Forall_app. split.
    + destruct (PyStr.truthy _) eqn:Ht; [|constructor].
      constructor; [|constructor]. simpl. right.
      split; [by right | by apply truthy_true].
    + induction tcs as [|tc tcs IH]; [constructor|].
      simpl. constructor; [|exact IH]. simpl.
      unfold PyStr.or_else.
      by destruct (PyStr.truthy _) eqn:Ht; [apply truthy_true|].
  - constructor; [|constructor]. done.
  - destruct (PyStr.truthy _) eqn:Ht; [|constructor].
    constructor; [|constructor]. simpl. by left.
Qed.

(** X12. Tool results are never dropped by the encoder: the
    function-call-output entries of a request are, in order, the tool
    messages of the conversation, each with its call id and its text (the
    empty text included). *)
Theorem tool_results_are_preserved :
  forall prompt_messages,
    entry_tool_results
      (convert_prompt_messages_to_responses_input prompt_messages)
    = tool_results prompt_messages.
Proof.
  intros pms. unfold convert_prompt_messages_to_responses_input,
    entry_tool_results, tool_results.
  induction pms as [|message rest IH]; [done|].
  simpl. rewrite omap_app, IH. clear IH.
  destruct message as [c|c|c tcs|c id|c]; simpl.
  - by destruct (PyStr.truthy _).
  - destruct c as [text|items|]; simpl; try done.
    by destruct (flat_map _ items).
  - rewrite omap_app.
    assert (H : forall l : list ToolCall,
      omap (fun entry =>
              match entry with
              | FunctionCallOutputEntry call_id output => Some (call_id, output)
              | _ => None
              end)
        (map (fun tool_call =>
                FunctionCallEntry
                  (PyStr.or_else (tc_id tool_call) (fn_name (tc_function tool_call)))
                  (fn_name (tc_function tool_call))
                  (PyStr.or_else (fn_arguments (tc_function tool_call)) "{}")) l)
      = []).
    { induction l as [|x l IHl]; [done | exact IHl]. }
    rewrite H. by destruct (PyStr.truthy _).
  - by rewrite or_else_empty.
  - by destruct (PyStr.truthy _).
Qed.


(** ** Further properties of the local token count *)

Lemma join_nil_of_empty_texts (messages : list PromptMessage) :
  Forall (fun m => extract_text m = "") messages ->
  filter (fun part => PyStr.truthy part = true) (map extract_text messages) = [].
Proof.
  induction 1 as [|m rest Hm _ IH]; [done|].
  simpl. rewrite Hm. rewrite filter_cons_False by done. exact IH.
Qed.

(** X14. When no message has any text, the local token count is zero,
    whatever the tools and whatever the tokenizer: tools are counted only
    beside a non-empty text. *)
Theorem no_text_no_tokens :
  forall model credentials prompt_messages tools,
    Forall (fun m => extract_text m = "") prompt_messages ->
    get_num_tokens model credentials prompt_messages tools = 0.
Proof.
  intros model credentials pms tools H. unfold get_num_tokens.
  by rewrite (join_nil_of_empty_texts pms H).
Qed.

Lemma fold_left_tokens_le {A} (cost : A -> nat) (l : list A) : forall n,
  n <= fold_left (fun count x => count + cost x) l n.
Proof.
  induction l as [|x l IH]; intros n; simpl; [lia|].
  specialize (IH (n + cost x)). lia.
Qed.

(** X15. Tools only add to the local token count: the count with more
    tools is at least the count with fewer, and the count with tools is at
    least the count of the text alone. *)
Theorem tools_only_add_tokens :
  forall model credentials prompt_messages tools more_tools,
    text_tokens model credentials prompt_messages
      <= get_num_tokens model credentials prompt_messages tools
    /\ get_num_tokens model credentials prompt_messages tools
       <= get_num_tokens model credentials prompt_messages (tools ++ more_tools).
Proof.
  intros model credentials pms tools more. unfold text_tokens, get_num_tokens.
  destruct (negb _); [simpl; lia|].
  set (encoding := match encoding_for_model model with
                   | Some e => e
                   | None => get_encoding "cl100k_base"
                   end).
  set (cost := fun tool : PromptMessageTool =>
         length (encode encoding (pt_name tool))
         + length (encode encoding (pt_description tool))
         + length (encode encoding
             (json_dumps (if py_truthy (pt_parameters tool)
                          then pt_parameters tool else PDict [])))).
  assert (Hfold : forall l n,
    fold_left (fun token_count tool =>
      token_count
      + length (encode encoding (pt_name tool))
      + length (encode encoding (pt_description tool))
      + length (encode encoding
          (json_dumps (if py_truthy (pt_parameters tool)
                       then pt_parameters tool else PDict [])))) l n
    = fold_left (fun count x => count + cost x) l n).
  { induction l as [|x l IH]; intros n; simpl; [done|].
    rewrite IH. f_equal. unfold cost. lia. }
  rewrite !Hfold, fold_left_app. simpl. split; apply fold_left_tokens_le.
Qed.

(** ** The request payload *)

(** X16. The payload never has a key outside its nine keys, whatever the
    model parameters hold: no other parameter, and no "user", is
    forwarded. *)
Theorem payload_has_no_other_key :
  forall prompt_messages model_parameters tools stop user key,
    ~ In key payload_keys ->
    build_responses_payload prompt_messages model_parameters tools stop user
      !! key = None.
Proof.
  intros pms mp tools stop user key Hkey.
  unfold payload_keys in Hkey. simpl in Hkey.
  assert (key <> "input") by (intros ->; tauto).
  assert (key <> "temperature") by (intros ->; tauto).
  assert (key <> "top_p") by (intros ->; tauto).
  assert (key <> "max_output_tokens") by (intros ->; tauto).
  assert (key <> "reasoning") by (intros ->; tauto).
  assert (key <> "text") by (intros ->; tauto).
  assert (key <> "tools") by (intros ->; tauto).
  assert (key <> "tool_choice") by (intros ->; tauto).
  assert (key <> "stop") by (intros ->; tauto).
  unfold build_responses_payload.
  repeat case_match;
    rewrite ?lookup_insert_ne by done;
    by rewrite lookup_singleton_ne.
Qed.

(** X17. What each key of the payload holds: the encoded input always;
    temperature and top_p whenever the parameter is present, whatever its
    truth value; the output-token budget from "max_tokens" when present
    and else from "max_completion_tokens"; the reasoning effort and the
    verbosity only when present and truthy; the converted tools with tool
    choice "auto" exactly when there are tools; the stop sequences exactly
    when there are some. *)
Theorem payload_table :
  forall prompt_messages model_parameters tools stop user,
    let payload :=
      build_responses_payload prompt_messages model_parameters tools stop user in
    payload !! "input"
      = Some (PayInput (convert_prompt_messages_to_responses_input prompt_messages))
    /\ payload !! "temperature" = PayParam <$> model_parameters !! "temperature"
    /\ payload !! "top_p" = PayParam <$> model_parameters !! "top_p"
    /\ payload !! "max_output_tokens"
       = PayParam <$> match model_parameters !! "max_tokens" with
                      | Some value => Some value
                      | None => model_parameters !! "max_completion_tokens"
                      end
    /\ payload !! "reasoning"
       = match model_parameters !! "reasoning_effort" with
         | Some effort =>
             if param_truthy effort then Some (PayReasoning effort) else None
         | None => None
         end
    /\ payload !! "text"
       = match model_parameters !! "verbosity" with
         | Some verbosity =>
             if param_truthy verbosity then Some (PayText verbosity) else None
         | None => None
         end
    /\ payload !! "tools"
       = match tools with
         | [] => None
         | _ => Some (PayTools (map convert_tool_to_response_tool tools))
         end
    /\ payload !! "tool_choice"
       = match tools with
         | [] => None
         | _ => Some (PayToolChoice "auto")
         end
    /\ payload !! "stop"
       = match stop with
         | [] => None
         | _ => Some (PayStop stop)
         end.
Proof.
  intros pms mp tools stop user payload. subst payload.
  repeat split; payload_lookup.
Qed.

(** ** Pending calls and tool-call turns *)

Lemma step_pending_origin model pms st ev cid :
  is_Some (pending_tool_calls (fst (step model pms st ev)) !! cid) ->
  (cid <> "" /\ announces cid ev)
  \/ (is_Some (pending_tool_calls st !! cid) /\ ~ completes cid ev).
Proof.
  assert (Hneg : forall a b, negb (String.eqb a b) = true -> a <> b).
  { intros a b H. by apply negb_true_iff, String.eqb_neq in H. }
  destruct ev as [ty delta iid [[ity icid iname iargs]|] args resp];
    unfold step, known_call, announces, completes; simpl;
    event_type_cases ty;
    repeat case_match; simplify_eq; simpl in *;
    intros Hin;
    match type of Hin with
    | is_Some (<[?k:=_]> _ !! _) =>
        destruct (decide (k = cid)) as [Heq|Hne];
        [ subst;
          first
            [ left; split; [by apply truthy_true|]; split; [done|];
              eexists; split; [done|]; split; [|done]; by apply String.eqb_eq
            | right; split; [by eauto|] ]
        | rewrite lookup_insert_ne in Hin by done;
          right; split; [exact Hin|] ]
    | is_Some (delete ?k _ !! _) =>
        apply lookup_delete_is_Some in Hin as [Hne Hin];
        right; split; [exact Hin|]
    | _ => right; split; [exact Hin|]
    end;
    intros (Hty & item & Hit & Hfc & Hid); simplify_eq; simpl in *;
    try done; try congruence;
    try (match goal with
         | H : negb (String.eqb _ _) = true |- _ => by apply Hneg in H
         end).
Qed.

(** X22. A call id is in the pending map when a stream ends exactly when
    it is not empty, the stream announced it, and no output-item-done
    event of a function-call item for it came after that announcement:
    argument events never create an entry, and only the completion of a
    call removes one. *)
Theorem pending_iff_announced_and_not_completed :
  forall model prompt_messages (events : list StreamEvent) call_id,
    is_Some (pending_tool_calls
               (fst (run_events model prompt_messages initial_state events))
             !! call_id)
    <-> call_id <> ""
        /\ exists before announce after,
             events = before ++ announce :: after
             /\ announces call_id announce
             /\ Forall (fun e => ~ completes call_id e) after.
Proof.
  intros model pms events cid. split.
  - induction events as [|ev events IH] using rev_ind.
    + simpl. rewrite lookup_empty. by intros [? ?].
    + rewrite run_events_snoc. intros Hin.
      apply step_pending_origin in Hin as [[Hne Hann]|[Hin Hnot]].
      * split; [done|]. exists events, ev, [].
        split; [done|]. split; [exact Hann | constructor].
      * destruct (IH Hin) as (Hne & before & announce & after & -> & Hann & Hall).
        split; [done|]. exists before, announce, (after ++ [ev]).
        split; [by rewrite <- app_assoc|]. split; [done|].
        apply Forall_app. split; [done | by constructor].
  - intros (Hne & before & announce & after & -> & Hann & Hall).
    rewrite run_events_fst_app.
    apply run_events_keeps_pending; [|done|].
    + right. by apply Exists_cons_hd.
    + constructor; [|done]. intros [Hty _]. destruct Hann as [Hty' _].
      congruence.
Qed.

Lemma usage_counts_cases model credentials response pms amsg tools :
  usage_counts model credentials response pms amsg tools =
    ((match reported_prompt_tokens response with
      | Some n => n
      | None => Z.of_nat (get_num_tokens model credentials pms tools)
      end,
      match reported_completion_tokens response with
      | Some n => n
      | None => Z.of_nat (get_num_tokens model credentials [amsg] [])
      end),
     match reported_prompt_tokens response with
     | Some _ => []
     | None => [mkNumTokensCall pms tools]
     end
     ++ match reported_completion_tokens response with
        | Some _ => []
        | None => [mkNumTokensCall [amsg] []]
        end).
Proof.
  unfold usage_counts, reported_prompt_tokens, reported_completion_tokens.
  destruct (response ≫= resp_usage) as [u|]; simpl; [|done].
  pose proof (count_or_reported (input_tokens u) (ru_prompt_tokens u)) as Hp.
  pose proof (count_or_reported (output_tokens u) (ru_completion_tokens u)) as Hc.
  destruct (reported_count (input_tokens u) (ru_prompt_tokens u)) as [n|];
    destruct (reported_count (output_tokens u) (ru_completion_tokens u)) as [m|];
    repeat match goal with
           | H : _ /\ _ |- _ => destruct H as [-> ->]
           | H : count_or _ _ = 0%Z |- _ => rewrite H
           end;
    done.
Qed.

(** X23. A turn with tool calls and no text, for which the remote side
    reported no completion count, is given zero completion tokens: the
    local estimate counts the text of the assistant message only, never
    its tool calls. *)
Theorem tool_call_turn_counts_no_completion_tokens :
  forall model credentials response prompt_messages tool_calls tools,
    reported_completion_tokens response = None ->
    snd (fst (usage_counts model credentials response prompt_messages
                (AssistantPromptMessage (ContentStr "") tool_calls) tools))
    = 0%Z.
Proof.
  intros model credentials response pms tcs tools Hnone.
  rewrite usage_counts_cases, Hnone. reflexivity.
Qed.

(** X24. The text extracted from a response is built item by item, in
    order and without separator: the text of two lists of output items put
    together is the concatenation of their texts; and items that are
    neither messages nor top-level text items (function calls, reasoning
    items, ...) can be removed without changing it. *)
Theorem response_text_is_built_item_by_item :
  forall response (first second : list OutputItem),
    extract_response_text (with_output response (first ++ second))
    = extract_response_text (with_output response first)
      +:+ extract_response_text (with_output response second)
    /\ extract_response_text
         (with_output response
            (filter (fun item => text_bearing item = true) first))
       = extract_response_text (with_output response first).
Proof.
  intros response o1 o2. unfold extract_response_text. simpl. split.
  - by rewrite flat_map_app, concat_all_app.
  - induction o1 as [|item rest IH]; [done|].
    destruct (text_bearing item) eqn:Hb.
    + rewrite filter_cons_True by done. simpl.
      by rewrite !concat_all_app, IH.
    + rewrite filter_cons_False by congruence. simpl.
      unfold text_bearing in Hb.
      destruct (String.eqb (oi_type item) "message"); [done|].
      destruct (String.eqb (oi_type item) "output_text"); [done|].
      destruct (String.eqb (oi_type item) "text"); [done|].
      exact IH.
Qed.

End Plugin.

(** ** Error classification *)

(** C7. Whatever the wrapped call raises, the wrapper raises one error of
    the taxonomy with the same message, the one the table gives for the
    class of the exception; a value is returned unchanged.  A rate-limit
    fault is an API fault as well, and is classified RateLimit. *)
Theorem invoke_error_mapping_classifies :
  forall (A : Type) (ex : Errors.ExcClass) (msg : string) (value : A),
    Errors.with_invoke_error_mapping (Errors.Raises ex msg : Errors.Outcome _ A)
      = Errors.Raises (Errors.classify ex) msg
    /\ Errors.with_invoke_error_mapping (Errors.Returns value : Errors.Outcome Errors.ExcClass A)
       = Errors.Returns value
    /\ Errors.issubclass Errors.RateLimitError Errors.APIError = true
    /\ Errors.with_invoke_error_mapping
         (Errors.Raises Errors.RateLimitError msg : Errors.Outcome _ A)
       = Errors.Raises Errors.InvokeRateLimitError msg.
Proof.
  intros A ex msg value. repeat split; try reflexivity.
  by destruct ex.
Qed.

(** ** Tier resolution *)

Lemma fold_char_idem c : Tier.fold_char (Tier.fold_char c) = Tier.fold_char c.
Proof. by destruct c as [[] [] [] [] [] [] [] []]. Qed.

Lemma fold_char_newline c :
  Ascii.eqb (Tier.fold_char c) (ascii_of_nat 10) = Ascii.eqb c (ascii_of_nat 10).
Proof. by destruct c as [[] [] [] [] [] [] [] []]. Qed.

Lemma fold_case_app s t :
  Tier.fold_case (s +:+ t) = Tier.fold_case s +:+ Tier.fold_case t.
Proof.
  induction s as [|c s IH]; [done|].
  rewrite sapp_cons. simpl. by rewrite IH.
Qed.

Lemma fold_case_empty s : Tier.fold_case s = "" -> s = "".
Proof. by destruct s. Qed.

(** A literal that matches splits the subject into a prefix that folds to
    the literal and the rest. *)
Lemma match_literal_i_sound lit : forall s rest,
  Tier.match_literal_i lit s = Some rest ->
  exists pre, s = pre +:+ rest /\ Tier.fold_case pre = lit.
Proof.
  induction lit as [|p lit IH]; intros s rest H; simpl in H.
  - exists "". by simplify_eq.
  - destruct s as [|c s]; [done|].
    unfold Tier.char_match_i in H.
    destruct (Ascii.eqb_spec p (Tier.fold_char c)) as [->|]; [|done].
    destruct (IH s rest H) as (pre & -> & Hpre).
    exists (String c pre). split; [done|]. simpl. by rewrite Hpre.
Qed.

(** Matching a literal does not depend on the case of the subject. *)
Lemma match_literal_i_fold lit : forall s,
  Tier.match_literal_i lit (Tier.fold_case s)
    = Tier.fold_case <$> Tier.match_literal_i lit s.
Proof.
  induction lit as [|p lit IH]; intros s; simpl; [done|].
  destruct s as [|c s]; simpl; [done|].
  unfold Tier.char_match_i. rewrite fold_char_idem.
  destruct (Ascii.eqb p (Tier.fold_char c)); [apply IH | done].
Qed.

Lemma match_tier_word_fold s :
  Tier.match_tier_word (Tier.fold_case s)
    = Tier.fold_case <$> Tier.match_tier_word s.
Proof.
  unfold Tier.match_tier_word. rewrite !match_literal_i_fold.
  destruct (Tier.match_literal_i "medium" s); [done|].
  change (fmap Tier.fold_case None) with (@None string).
  cbv iota.
  by destruct (Tier.match_literal_i "high" s).
Qed.

Lemma match_hyphen_word_fold s :
  Tier.match_hyphen_word (Tier.fold_case s)
    = Tier.fold_case <$> Tier.match_hyphen_word s.
Proof.
  unfold Tier.match_hyphen_word. rewrite match_literal_i_fold.
  destruct (Tier.match_literal_i "-" s); [|done].
  apply match_tier_word_fold.
Qed.

Lemma at_dollar_fold s : Tier.at_dollar (Tier.fold_case s) = Tier.at_dollar s.
Proof.
  destruct s as [|c [|d s]]; simpl; try done. apply fold_char_newline.
Qed.

Lemma match_tier_suffix_fold s :
  Tier.match_tier_suffix (Tier.fold_case s)
    = Tier.fold_case <$> Tier.match_tier_suffix s.
Proof.
  unfold Tier.match_tier_suffix. rewrite match_hyphen_word_fold.
  destruct (Tier.match_hyphen_word s) as [r1|]; [|done].
  cbn [fmap option_fmap option_map].
  rewrite match_hyphen_word_fold.
  destruct (Tier.match_hyphen_word r1) as [r2|];
    cbn [fmap option_fmap option_map];
    rewrite ?at_dollar_fold;
    repeat (case_match; try done).
Qed.

Lemma match_tier_word_sound s rest :
  Tier.match_tier_word s = Some rest ->
  exists w, s = w +:+ rest /\ In (Tier.fold_case w) Tier.tier_words.
Proof.
  unfold Tier.match_tier_word. intros H.
  destruct (Tier.match_literal_i "medium" s) as [r|] eqn:E1.
  { simplify_eq. destruct (match_literal_i_sound _ _ _ E1) as (w & -> & Hw).
    exists w. rewrite Hw. simpl. auto. }
  destruct (Tier.match_literal_i "high" s) as [r|] eqn:E2.
  { simplify_eq. destruct (match_literal_i_sound _ _ _ E2) as (w & -> & Hw).
    exists w. rewrite Hw. simpl. auto. }
  destruct (match_literal_i_sound _ _ _ H) as (w & -> & Hw).
  exists w. rewrite Hw. simpl. auto.
Qed.

Lemma match_hyphen_word_sound s rest :
  Tier.match_hyphen_word s = Some rest ->
  exists w, s = "-" +:+ w +:+ rest
            /\ In (Tier.fold_case w) Tier.tier_words.
Proof.
  unfold Tier.match_hyphen_word. intros H.
  destruct (Tier.match_literal_i "-" s) as [r|] eqn:E; simpl in H; [|done].
  destruct (match_literal_i_sound _ _ _ E) as (h & -> & Hh).
  destruct (match_tier_word_sound _ _ H) as (w & -> & Hw).
  exists w. split; [|done].
  destruct h as [|c [|d h]]; simpl in Hh; try done.
  injection Hh as Hc. rewrite !sapp_cons. f_equal.
  by destruct c as [[] [] [] [] [] [] [] []].
Qed.

Lemma in_recognized_one w :
  In w Tier.tier_words -> In ("-" +:+ w) Tier.recognized_suffixes.
Proof.
  unfold Tier.tier_words. simpl.
  intros [<-|[<-|[<-|[]]]]; vm_compute; tauto.
Qed.

Lemma in_recognized_two a b :
  In a Tier.tier_words -> In b Tier.tier_words ->
  In ("-" +:+ a +:+ "-" +:+ b) Tier.recognized_suffixes.
Proof.
  unfold Tier.tier_words. simpl.
  intros [<-|[<-|[<-|[]]]] [<-|[<-|[<-|[]]]]; vm_compute; tauto.
Qed.

(** What the pattern matches is a recognized suffix, followed by the end
    of the string or by a final line feed. *)
Lemma match_tier_suffix_sound s rest :
  Tier.match_tier_suffix s = Some rest ->
  Tier.at_dollar rest = true
  /\ exists pre, s = pre +:+ rest
                 /\ In (Tier.fold_case pre) Tier.recognized_suffixes.
Proof.
  unfold Tier.match_tier_suffix. intros H.
  destruct (Tier.match_hyphen_word s) as [r1|] eqn:E1; [|done].
  destruct (match_hyphen_word_sound _ _ E1) as (a & -> & Ha).
  assert (Hone : Tier.at_dollar r1 = true ->
                 Tier.at_dollar r1 = true
                 /\ exists pre, "-" +:+ a +:+ r1 = pre +:+ r1
                      /\ In (Tier.fold_case pre) Tier.recognized_suffixes).
  { intros Hd. split; [done|]. exists ("-" +:+ a). split; [by rewrite !sapp_cons|].
    rewrite fold_case_app. by apply in_recognized_one. }
  destruct (Tier.match_hyphen_word r1) as [r2|] eqn:E2.
  - destruct (match_hyphen_word_sound _ _ E2) as (b & -> & Hb).
    destruct (Tier.at_dollar r2) eqn:D2.
    + simplify_eq. split; [done|].
      exists ("-" +:+ a +:+ "-" +:+ b). split.
      * rewrite !sapp_cons. simpl. f_equal. by rewrite !sapp_assoc.
      * rewrite !fold_case_app. by apply in_recognized_two.
    + destruct (Tier.at_dollar ("-" +:+ b +:+ r2)) eqn:D1; [|done].
      simplify_eq. destruct (Hone eq_refl) as [_ Hex]. by split.
  - destruct (Tier.at_dollar r1) eqn:D1; [|done].
    simplify_eq. destruct (Hone eq_refl) as [_ Hex]. by split.
Qed.

(** A recognized suffix is matched whole. *)
Lemma match_tier_suffix_complete s :
  Tier.is_recognized_suffix s = true -> Tier.match_tier_suffix s = Some "".
Proof.
  unfold Tier.is_recognized_suffix. intros H.
  apply existsb_exists in H as (w & Hin & Heq).
  apply String.eqb_eq in Heq.
  assert (Hm : Tier.match_tier_suffix (Tier.fold_case s) = Some "").
  { rewrite Heq. vm_compute in Hin.
    repeat (destruct Hin as [<-|Hin]; [by vm_compute|]). done. }
  rewrite match_tier_suffix_fold in Hm.
  destruct (Tier.match_tier_suffix s) as [r|]; simpl in Hm; [|done].
  simplify_eq. f_equal. by apply fold_case_empty.
Qed.

Lemma ends_with_newline_app pre :
  Tier.ends_with_newline (pre +:+ String (ascii_of_nat 10) "") = true.
Proof.
  induction pre as [|c pre IH]; [done|].
  rewrite sapp_cons. destruct pre as [|d pre]; [done|].
  rewrite sapp_cons in *. exact IH.
Qed.



(** The pattern of tier values is the strict token pattern. *)
Lemma tier_value_fullmatch_strict tier :
  Tier.tier_value_fullmatch tier = Tier.strict_token tier.
Proof.
  unfold Tier.tier_value_fullmatch, Tier.strict_token.
  destruct tier as [|c rest]; [done|].
  cbn [String.length Tier.all_chars].
  assert (Hc : Tier.is_lower_alnum c = true -> Tier.is_tier_char c = true).
  { unfold Tier.is_tier_char. by intros ->. }
  destruct (Tier.is_lower_alnum c) eqn:Ec;
    [rewrite (Hc eq_refl) | by rewrite !andb_false_r].
  simpl. by destruct (String.length rest <=? 31)%nat.
Qed.



(** The [$] of the suffix pattern also matches before a final line feed:
    there the suffix is removed from the middle of the model id. *)
Lemma tier_suffix_before_final_line_feed :
  let model := "gpt-5-high" +:+ String (ascii_of_nat 10) "" in
  Tier.resolve_model_with_performance_tier model "xhigh" ""
    = "gpt-5" +:+ String (ascii_of_nat 10) "" +:+ "-xhigh".
Proof. reflexivity. Qed.


(** ** Concrete runs *)



Lemma finalized_arguments_follow_table_witness :
  let before := [Demo.item_added (Demo.function_call_item "call_1" "f" "")] in
  let item := Demo.function_call_item "call_1" "f" Demo.json_x1 in
  let st := fst (run_events Demo.LLMUsage "gpt-5" [] initial_state before) in
  exists tc,
    tool_calls (fst (step Demo.LLMUsage "gpt-5" [] st (Demo.item_done item)))
      = tool_calls st ++ [tc]
    /\ flat_map (chunk_tool_calls Demo.LLMUsage)
         (snd (step Demo.LLMUsage "gpt-5" [] st (Demo.item_done item))) = [tc]
    /\ fn_name (tc_function tc) = "f"
    /\ fn_arguments (tc_function tc)
       = effective_arguments (pending_tool_calls st) item.
Proof.
  apply (finalized_arguments_follow_table Demo.LLMUsage "gpt-5" []
           [Demo.item_added (Demo.function_call_item "call_1" "f" "")]
           (Demo.item_done (Demo.function_call_item "call_1" "f" Demo.json_x1))
           (Demo.function_call_item "call_1" "f" Demo.json_x1)).
  - reflexivity.
  - reflexivity.
  - reflexivity.
  - discriminate.
Defined.

(** The claim C3 as stated: the call id is known to the pending map, the
    buffer is empty, and the finalized arguments are the item's own and
    not the buffered ones. *)
Lemma known_call_empty_buffer_counterexample :
  let before := [Demo.item_added (Demo.function_call_item "call_1" "f" "")] in
  let item := Demo.function_call_item "call_1" "f" Demo.json_x1 in
  let st := fst (run_events Demo.LLMUsage "gpt-5" [] initial_state before) in
  let st' := fst (step Demo.LLMUsage "gpt-5" [] st (Demo.item_done item)) in
  pending_tool_calls st !! "call_1" = Some {| p_name := "f"; p_arguments := "" |}
  /\ map (fun tc => fn_arguments (tc_function tc)) (tool_calls st') = [Demo.json_x1]
  /\ Demo.json_x1 <> ""
  /\ ~ (forall entry tc,
          pending_tool_calls st !! si_call_id item = Some entry ->
          In tc (tool_calls st') ->
          fn_arguments (tc_function tc) = p_arguments entry).
Proof.
  cbv zeta. split; [by vm_compute|]. split; [by vm_compute|].
  split; [discriminate|].
  intros H.
  specialize (H {| p_name := "f"; p_arguments := "" |}
                (build_tool_call "f" "call_1" Demo.json_x1)).
  assert (Hfalse : Demo.json_x1 = "") by (apply H; vm_compute; auto).
  discriminate.
Qed.



Lemma abandoned_call_is_dropped_witness :
  let response :=
    [Demo.item_added (Demo.function_call_item "call_1" "f" "");
     Demo.arguments_delta "call_1" "{";
     Demo.text_delta "msg_1" "hi"] in
  let st := fst (run_events Demo.LLMUsage "gpt-5" [] initial_state response) in
  is_Some (pending_tool_calls st !! "call_1")
  /\ tool_calls st = []
  /\ map (chunk_finish_reason Demo.LLMUsage)
       (handle_responses_stream_response Demo.Credentials Demo.LLMUsage
          Demo.calc_response_usage Demo.Encoding Demo.encoding_for_model
          Demo.get_encoding Demo.encode Demo.json_dumps
          "gpt-5" tt response [] [])
     = [None; Some "stop"].
Proof.
  destruct (abandoned_call_is_dropped Demo.Credentials Demo.LLMUsage
              Demo.calc_response_usage Demo.Encoding Demo.encoding_for_model
              Demo.get_encoding Demo.encode Demo.json_dumps
              "gpt-5" tt
              [Demo.item_added (Demo.function_call_item "call_1" "f" "");
               Demo.arguments_delta "call_1" "{";
               Demo.text_delta "msg_1" "hi"] [] [] "call_1")
    as (Hpending & _ & Hcalls & _ & Hout & _ & _ & Hfinish).
  - discriminate.
  - apply Exists_cons_hd. split; [reflexivity|]. eexists. repeat split.
  - repeat constructor; intros [Hty _]; discriminate.
  - cbv zeta. split; [exact Hpending|].
    split; [by inversion Hcalls|].
    rewrite Hout, map_app. cbn [map]. rewrite Hfinish. reflexivity.
Defined.

Lemma user_text_round_trip_witness :
  let part := {| ocp_type := "output_text"; ocp_text := "hello" |} in
  let item :=
    {| oi_type := "message"; oi_content := [part]; oi_text := "";
       oi_name := ""; oi_arguments := ArgsAbsent; oi_call_id := "";
       oi_id := "msg_1" |} in
  let response :=
    {| resp_output_text := None; resp_output := [item]; resp_usage := None;
       resp_model := Some "gpt-5"; resp_id := "resp_1" |} in
  convert_prompt_messages_to_responses_input [UserPromptMessage (ContentStr "hello")]
    = [RoleContent "user" "hello"]
  /\ r_message
       (handle_responses_response Demo.Credentials Demo.LLMUsage
          Demo.calc_response_usage Demo.Encoding Demo.encoding_for_model
          Demo.get_encoding Demo.encode Demo.json_dumps
          "gpt-5" tt response [UserPromptMessage (ContentStr "hello")] [])
     = AssistantPromptMessage (ContentStr "hello") [].
Proof.
  cbv zeta.
  eapply (user_text_round_trip Demo.Credentials Demo.LLMUsage
            Demo.calc_response_usage Demo.Encoding Demo.encoding_for_model
            Demo.get_encoding Demo.encode Demo.json_dumps "hello");
    reflexivity.
Defined.


(** ** Client settings *)

Lemma rstrip_slash_spec s :
  exists n,
    s = Common.rstrip_slash s +:+ Common.slashes n
    /\ Common.last_char (Common.rstrip_slash s) <> Some "/"%char.
Proof.
  induction s as [|c s (n & Heq & Hlast)]; [by exists 0|].
  cbn [Common.rstrip_slash].
  destruct (Common.rstrip_slash s) as [|d r] eqn:Hr.
  - simpl in *. destruct (Ascii.eqb_spec c "/") as [->|Hc].
    + exists (S n). split; [by rewrite Heq|done].
    + exists n. split; [by rewrite sapp_cons, <- Heq|]. simpl. congruence.
  - simpl. exists n. split; [by rewrite sapp_cons, <- Heq|]. exact Hlast.
Qed.

(** X18. The client settings exist exactly when both credentials are
    present, and the failure names the first missing key (the API base is
    looked up first).  The base URL is the API base without its trailing
    slashes and nothing else changed, and the API key is passed as it
    is. *)
Theorem credential_kwargs_trim_trailing_slashes :
  forall credentials : gmap string string,
    match Common.to_credential_kwargs credentials with
    | inl kwargs =>
        credentials !! "codex_api_key" = Some (Common.ck_api_key kwargs)
        /\ Common.ck_max_retries kwargs = 1%Z
        /\ Common.last_char (Common.ck_base_url kwargs) <> Some "/"%char
        /\ exists api_base n,
             credentials !! "codex_api_base" = Some api_base
             /\ api_base = Common.ck_base_url kwargs +:+ Common.slashes n
    | inr key =>
        credentials !! key = None
        /\ (key = "codex_api_base"
            \/ (key = "codex_api_key"
                /\ is_Some (credentials !! "codex_api_base")))
    end.
Proof.
  intros credentials. unfold Common.to_credential_kwargs.
  destruct (credentials !! "codex_api_base") as [api_base|] eqn:Hbase;
    [|by split; [|left]].
  destruct (credentials !! "codex_api_key") as [api_key|] eqn:Hkey.
  - simpl. destruct (rstrip_slash_spec api_base) as (n & Heq & Hlast).
    repeat split; try done. by exists api_base, n.
  - split; [done|]. right. split; [done | by eexists].
Qed.

(** ** Model catalog *)

(** X19. The template is an entry of the predefined models: the first one
    whose model id is "gpt-5.2" when there is one, else the first entry;
    picking fails exactly when there are no predefined models. *)
Theorem template_is_flagship_or_first :
  forall (Feature ParameterRule PriceConfig : Type)
         (predefined : list (Catalog.AIModelEntity Feature ParameterRule PriceConfig)),
    match Catalog.pick_template_model predefined with
    | None => predefined = []
    | Some template =>
        In template predefined
        /\ ((Catalog.me_model template = "gpt-5.2"
             /\ List.find (fun item => String.eqb (Catalog.me_model item) "gpt-5.2")
                  predefined = Some template)
            \/ (List.Forall (fun item => Catalog.me_model item <> "gpt-5.2") predefined
                /\ head predefined = Some template))
    end.
Proof.
  intros F R P predefined. unfold Catalog.pick_template_model.
  destruct predefined as [|first rest]; [done|].
  destruct (List.find _ (first :: rest)) as [found|] eqn:Hfind.
  - simpl. apply find_some in Hfind as Hfound. destruct Hfound as [Hin Hid].
    split; [exact Hin|]. left. split; [by apply String.eqb_eq | done].
  - cbn [default from_option]. split; [by left|]. right. split; [|done].
    apply List.Forall_forall. intros item Hin Hid.
    apply (find_none _ _ Hfind) in Hin.
    apply String.eqb_neq in Hin. done.
Qed.

Lemma first_occurrences_subset ids id :
  id ∈ Catalog.first_occurrences ids -> id ∈ ids.
Proof.
  induction ids as [|x rest IH]; [done|].
  simpl. rewrite elem_of_cons, list_elem_of_filter.
  intros [->|[_ Hin]]; [by left | right; by apply IH].
Qed.

Lemma first_occurrences_filter (Q : string -> Prop) `{!forall x, Decision (Q x)} ids :
  filter Q (Catalog.first_occurrences ids)
  = Catalog.first_occurrences (filter Q ids).
Proof.
  induction ids as [|x rest IH]; [done|].
  simpl. rewrite !filter_cons. destruct (decide (Q x)) as [Hx|Hx].
  - simpl. f_equal. rewrite <- IH.
    rewrite !list_filter_filter. apply list_filter_iff. tauto.
  - rewrite <- IH. rewrite list_filter_filter.
    apply list_filter_iff. intros y. split; [tauto|].
    intros Hy. split; [exact Hy|]. by intros ->.
Qed.

Lemma first_occurrences_NoDup ids : NoDup (Catalog.first_occurrences ids).
Proof.
  induction ids as [|x rest IH]; [constructor|].
  simpl. constructor; [|by apply NoDup_filter].
  rewrite list_elem_of_filter. by intros [H _].
Qed.

Lemma remote_models_loop_spec {F R P : Type}
    (template : Catalog.AIModelEntity F R P) ids :
  forall entities seen,
    let build := fun id => Catalog.build_model_entity_from_template id template in
    let '(entities', seen') :=
      fold_left (Catalog.remote_models_step template) ids (entities, seen) in
    entities' =
      entities
      ++ map build
           (Catalog.first_occurrences
              (filter (fun id => id <> "" /\ id ∉ seen) ids)).
Proof.
  induction ids as [|id rest IH]; intros entities seen build.
  - simpl. by rewrite app_nil_r.
  - simpl. rewrite filter_cons.
    destruct (PyStr.truthy id) eqn:Hid; simpl.
    + apply truthy_true in Hid.
      destruct (bool_decide_reflect (id ∈ seen)) as [Hseen|Hseen].
      * rewrite decide_False by tauto. apply IH.
      * rewrite decide_True by done.
        specialize (IH (entities ++ [build id]) ({[id]} ∪ seen)).
        destruct (fold_left _ rest _) as [entities' seen'].
        rewrite IH. rewrite <- app_assoc. f_equal. simpl. f_equal. f_equal.
        rewrite first_occurrences_filter, list_filter_filter.
        f_equal. apply list_filter_iff. intros y.
        rewrite not_elem_of_union, not_elem_of_singleton. tauto.
    + apply truthy_false in Hid.
      rewrite decide_False by tauto. apply IH.
Qed.

(** X20. With a template and both credentials, a listing that succeeds
    yields one entity per distinct non-empty model id, in the order of the
    first occurrences of the ids, each built from the template; no id
    occurs twice among the entities. *)
Theorem remote_models_lists_each_id_once :
  forall (Feature ParameterRule PriceConfig : Type)
         (predefined : list (Catalog.AIModelEntity Feature ParameterRule PriceConfig))
         template credentials kwargs (ids : list string),
    Catalog.pick_template_model predefined = Some template ->
    Common.to_credential_kwargs credentials = inl kwargs ->
    let listed := Catalog.first_occurrences (filter (fun id => id <> "") ids) in
    Catalog.remote_models predefined credentials (Errors.Returns ids)
      = Errors.Returns
          (map (fun id => Catalog.build_model_entity_from_template id template)
             listed)
    /\ NoDup listed
    /\ (forall id, id ∈ listed <-> id ∈ ids /\ id <> "").
Proof.
  intros F R P predefined template credentials kwargs ids Hpick Hkw listed.
  split; [|split].
  - unfold Catalog.remote_models. rewrite Hpick, Hkw. simpl. f_equal.
    pose proof (remote_models_loop_spec template ids [] ∅) as H.
    destruct (fold_left _ ids _) as [entities seen]. simpl in *.
    rewrite H. subst listed. f_equal. f_equal.
    apply list_filter_iff. intros y. split; [tauto|].
    intros Hy. split; [exact Hy | apply not_elem_of_empty].
  - apply first_occurrences_NoDup.
  - intros id. subst listed. split.
    + intros H. apply first_occurrences_subset in H.
      by apply list_elem_of_filter in H as [? ?].
    + intros [Hin Hne].
      rewrite <- first_occurrences_filter. apply list_elem_of_filter.
      split; [done|].
      clear Hne. induction ids as [|x rest IH]; [by inversion Hin|].
      simpl. destruct (decide (id = x)) as [->|Hx]; [by left|].
      right. apply list_elem_of_filter. split; [done|].
      apply IH. by apply elem_of_cons in Hin as [?|?].
Qed.

(** ** Changing the tier of a model id *)

Lemma slength_app s t :
  String.length (s +:+ t) = String.length s + String.length t.
Proof.
  induction s as [|c s IH]; [done|].
  rewrite sapp_cons. simpl. by rewrite IH.
Qed.

Lemma sapp_inj_2 x1 s1 x2 s2 :
  String.length s1 = String.length s2 ->
  x1 +:+ s1 = x2 +:+ s2 -> x1 = x2 /\ s1 = s2.
Proof.
  revert x2. induction x1 as [|c x1 IH]; intros [|d x2] Hlen Heq.
  - done.
  - exfalso. apply (f_equal String.length) in Heq.
    change ("" +:+ s1) with s1 in Heq.
    rewrite sapp_cons in Heq. simpl in Heq. rewrite slength_app in Heq. lia.
  - exfalso. apply (f_equal String.length) in Heq.
    change ("" +:+ s2) with s2 in Heq.
    rewrite sapp_cons in Heq. simpl in Heq. rewrite slength_app in Heq. lia.
  - rewrite !sapp_cons in Heq. injection Heq as -> Heq.
    destruct (IH x2 Hlen Heq) as [-> ->]. done.
Qed.

(** Solve [X +:+ s = r] for concrete [s] and [r]: either [r] is too short
    or does not end with [s], or [X] is the rest of [r]. *)
Ltac solve_suffix_equation H :=
  match type of H with
  | ?X +:+ ?s = ?r =>
      let ls := eval vm_compute in (String.length s) in
      let lr := eval vm_compute in (String.length r) in
      first
        [ exfalso; apply (f_equal String.length) in H;
          rewrite slength_app in H;
          change (String.length s) with ls in H;
          change (String.length r) with lr in H; lia
        | let r1 := eval vm_compute in
                      (String.substring 0 (lr - ls) r) in
          let r2 := eval vm_compute in
                      (String.substring (lr - ls) ls r) in
          change r with (r1 +:+ r2) in H;
          apply sapp_inj_2 in H; [|reflexivity];
          destruct H as [H ?]; try discriminate ]
  end.

Lemma match_tier_suffix_consumes s rest :
  Tier.match_tier_suffix s = Some rest -> rest <> s.
Proof.
  intros Hm Heq. destruct (match_tier_suffix_sound _ _ Hm) as (_ & pre & Hs & Hin).
  subst rest. apply (f_equal String.length) in Hs. rewrite slength_app in Hs.
  destruct pre as [|c pre]; [|simpl in Hs; lia].
  vm_compute in Hin. intuition discriminate.
Qed.

Lemma tier_suffix_sub_fixed_cons c b :
  Tier.tier_suffix_sub (String c b) = String c b ->
  Tier.match_tier_suffix (String c b) = None /\ Tier.tier_suffix_sub b = b.
Proof.
  cbn [Tier.tier_suffix_sub].
  destruct (Tier.match_tier_suffix (String c b)) as [rest|] eqn:Hm.
  - intros ->. by apply match_tier_suffix_consumes in Hm.
  - intros Heq. by injection Heq.
Qed.

Lemma no_newline_after_tier_word x w :
  In w Tier.tier_words -> Tier.ends_with_newline (x +:+ "-" +:+ w) = false.
Proof.
  intros Hw. induction x as [|c x IH].
  - unfold Tier.tier_words in Hw. simpl in Hw.
    destruct Hw as [<-|[<-|[<-|[]]]]; reflexivity.
  - rewrite sapp_cons.
    destruct (x +:+ "-" +:+ w) as [|d y] eqn:Hy; [|exact IH].
    apply (f_equal String.length) in Hy. rewrite slength_app in Hy.
    simpl in Hy. lia.
Qed.

(** After a tier word is appended to a model id that carries no tier
    suffix, the substitution gives the model id back. *)
Lemma tier_suffix_sub_after_tier_word base w :
  Tier.tier_suffix_sub base = base ->
  In w Tier.tier_words ->
  Tier.tier_suffix_sub (base +:+ "-" +:+ w) = base.
Proof.
  intros Hfix Hw. induction base as [|c b IH].
  - unfold Tier.tier_words in Hw. simpl in Hw.
    destruct Hw as [<-|[<-|[<-|[]]]]; reflexivity.
  - destruct (tier_suffix_sub_fixed_cons _ _ Hfix) as [Hnone Hb].
    rewrite sapp_cons. cbn [Tier.tier_suffix_sub].
    rewrite <- sapp_cons.
    destruct (Tier.match_tier_suffix (String c b +:+ "-" +:+ w))
      as [rest|] eqn:Hm.
    + exfalso.
      destruct (match_tier_suffix_sound _ _ Hm) as (Hd & pre & Heq & Hin).
      assert (rest = "") as ->.
      { destruct rest as [|d [|e rest]]; simpl in Hd; try done.
        apply Ascii.eqb_eq in Hd. subst d.
        pose proof (no_newline_after_tier_word (String c b) w Hw) as Hnl.
        by rewrite Heq, ends_with_newline_app in Hnl. }
      rewrite sapp_nil_r in Heq. subst pre.
      rewrite fold_case_app in Hin.
      assert (Hrec : Tier.is_recognized_suffix (String c b) = true).
      { unfold Tier.is_recognized_suffix.
        assert (HX : Tier.fold_case (String c b) <> "") by done.
        remember (Tier.fold_case (String c b)) as X eqn:EX. clear EX.
        unfold Tier.recognized_suffixes, Tier.tier_words in Hin.
        cbn [map flat_map app In] in Hin.
        unfold Tier.tier_words in Hw. cbn [In] in Hw.
        destruct Hw as [<-|[<-|[<-|[]]]];
          repeat (destruct Hin as [Hin|Hin];
                  [symmetry in Hin; solve_suffix_equation Hin;
                   first [ by destruct HX | by rewrite Hin ] |]);
          done. }
      apply match_tier_suffix_complete in Hrec. congruence.
    + rewrite sapp_cons. f_equal. by apply IH.
Qed.

(** X21. Changing the tier: when a model id carries no tier suffix, giving
    it one of the tiers medium, high or xhigh and then any other valid
    tier yields the same model id as giving it the second tier at once:
    the model id followed by "-" and the second tier. *)
Theorem last_tier_wins :
  forall base tier_value1 custom1 tier_value2 custom2,
    let tier1 := Tier.effective_tier tier_value1 custom1 in
    let tier2 := Tier.effective_tier tier_value2 custom2 in
    Tier.tier_suffix_sub base = base ->
    In tier1 Tier.tier_words ->
    Tier.strict_token tier2 = true ->
    tier2 <> "auto" ->
    Tier.resolve_model_with_performance_tier
      (Tier.resolve_model_with_performance_tier base tier_value1 custom1)
      tier_value2 custom2
    = Tier.resolve_model_with_performance_tier base tier_value2 custom2
    /\ Tier.resolve_model_with_performance_tier base tier_value2 custom2
       = base +:+ "-" +:+ tier2.
Proof.
  intros base tv1 c1 tv2 c2 tier1 tier2 Hfix Hw Hstrict Hauto.
  assert (H2 : forall model,
    Tier.resolve_model_with_performance_tier model tv2 c2
    = Tier.tier_suffix_sub model +:+ "-" +:+ tier2).
  { intros model. unfold Tier.resolve_model_with_performance_tier. fold tier2.
    rewrite tier_value_fullmatch_strict, Hstrict.
    destruct (String.eqb_spec tier2 "") as [He|_];
      [by rewrite He in Hstrict|].
    by destruct (String.eqb_spec tier2 "auto"). }
  assert (H1 : Tier.resolve_model_with_performance_tier base tv1 c1
               = base +:+ "-" +:+ tier1).
  { unfold Tier.resolve_model_with_performance_tier. fold tier1.
    rewrite Hfix. unfold Tier.tier_words in Hw. simpl in Hw.
    destruct Hw as [<-|[<-|[<-|[]]]]; reflexivity. }
  rewrite !H2, H1, Hfix.
  by rewrite tier_suffix_sub_after_tier_word.
Qed.

(** ** Concrete runs of the further properties *)

Lemma stream_without_completed_counts_locally_witness :
  let response := [Demo.text_delta "msg_1" "hi"] in
  exists body final,
    handle_responses_stream_response Demo.Credentials Demo.LLMUsage
      Demo.calc_response_usage Demo.Encoding Demo.encoding_for_model
      Demo.get_encoding Demo.encode Demo.json_dumps
      "gpt-5" tt response [UserPromptMessage (ContentStr "ping")] []
    = body ++ [final]
    /\ d_usage (ch_delta final) = Some (4%Z, 2%Z)
    /\ ch_system_fingerprint final = "".
Proof.
  destruct (stream_without_completed_counts_locally Demo.Credentials
              Demo.LLMUsage Demo.calc_response_usage Demo.Encoding
              Demo.encoding_for_model Demo.get_encoding Demo.encode
              Demo.json_dumps "gpt-5" tt [Demo.text_delta "msg_1" "hi"]
              [UserPromptMessage (ContentStr "ping")] [])
    as (body & final & Hchunks & Husage & Hfp).
  - repeat constructor; discriminate.
  - exists body, final. split; [exact Hchunks|]. split; [exact Husage | exact Hfp].
Defined.

Lemma argument_deltas_accumulate_witness :
  let item := Demo.function_call_item "call_1" "f" "" in
  let events :=
    [Demo.item_added item; Demo.arguments_delta "call_1" "{";
     Demo.arguments_delta "" "}"] in
  let st1 := fst (run_events Demo.LLMUsage "gpt-5" [] initial_state events) in
  let st2 :=
    fst (run_events Demo.LLMUsage "gpt-5" [] initial_state
           (events ++ [Demo.item_done item])) in
  p_arguments <$> pending_tool_calls st1 !! "call_1" = Some "{}"
  /\ exists tc,
       tool_calls st2 = tool_calls st1 ++ [tc]
       /\ fn_arguments (tc_function tc) = "{}".
Proof.
  apply (argument_deltas_accumulate Demo.LLMUsage "gpt-5" [] []
           [Demo.arguments_delta "call_1" "{"; Demo.arguments_delta "" "}"]
           (Demo.item_added (Demo.function_call_item "call_1" "f" ""))
           (Demo.item_done (Demo.function_call_item "call_1" "f" ""))
           "call_1" (Demo.function_call_item "call_1" "f" "")).
  - discriminate.
  - split; [reflexivity|]. eexists. repeat split.
  - constructor; [split; [reflexivity | left; reflexivity]|].
    constructor; [split; [reflexivity | right; reflexivity]|].
    constructor.
  - reflexivity.
  - reflexivity.
  - reflexivity.
  - reflexivity.
  - discriminate.
Defined.


Lemma no_text_no_tokens_witness :
  get_num_tokens Demo.Credentials Demo.Encoding Demo.encoding_for_model
    Demo.get_encoding Demo.encode Demo.json_dumps "gpt-5" tt
    [UserPromptMessage (ContentList [ImagePromptMessageContent "http://x/y.png" "" None]);
     SystemPromptMessage (ContentStr "")]
    [{| pt_name := "lookup"; pt_description := "finds"; pt_parameters := PDict [] |}]
  = 0.
Proof.
  apply (no_text_no_tokens Demo.Credentials Demo.Encoding
           Demo.encoding_for_model Demo.get_encoding Demo.encode
           Demo.json_dumps).
  repeat constructor.
Defined.

Lemma payload_has_no_other_key_witness :
  build_responses_payload Demo.json_loads PyVal py_truthy
    [UserPromptMessage (ContentStr "ping")]
    (<["user" := PStr "u-1"]> (<["enable_stream" := PBool true]> ∅))
    [] [] (Some "u-1")
    !! "user" = None.
Proof.
  apply (payload_has_no_other_key Demo.json_loads PyVal py_truthy).
  unfold payload_keys. simpl. intuition discriminate.
Defined.

Lemma tool_call_turn_counts_no_completion_tokens_witness :
  snd (fst (usage_counts Demo.Credentials Demo.Encoding
              Demo.encoding_for_model Demo.get_encoding Demo.encode
              Demo.json_dumps "gpt-5" tt None
              [UserPromptMessage (ContentStr "ping")]
              (AssistantPromptMessage (ContentStr "")
                 [build_tool_call "f" "call_1" "{}"]) []))
  = 0%Z.
Proof.
  apply (tool_call_turn_counts_no_completion_tokens Demo.Credentials
           Demo.Encoding Demo.encoding_for_model Demo.get_encoding
           Demo.encode Demo.json_dumps).
  reflexivity.
Defined.

Lemma remote_models_lists_each_id_once_witness :
  let template : Catalog.AIModelEntity unit unit unit :=
    {| Catalog.me_model := "gpt-5.2";
       Catalog.me_label := {| Catalog.en_US := "GPT"; Catalog.zh_Hans := "GPT" |};
       Catalog.me_model_type := Catalog.LLM;
       Catalog.me_features := [tt];
       Catalog.me_fetch_from := Catalog.PREDEFINED_MODEL;
       Catalog.me_model_properties := ∅;
       Catalog.me_parameter_rules := [];
       Catalog.me_pricing := None |} in
  let credentials : gmap string string :=
    <["codex_api_base" := "https://host/v1/"]> (<["codex_api_key" := "k"]> ∅) in
  Catalog.remote_models [template] credentials
    (Errors.Returns ["a"; ""; "b"; "a"])
  = Errors.Returns
      (map (fun id => Catalog.build_model_entity_from_template id template)
         ["a"; "b"]).
Proof.
  cbv zeta.
  eapply proj1.
  eapply (remote_models_lists_each_id_once unit unit unit _ _ _ _
            ["a"; ""; "b"; "a"]).
  - reflexivity.
  - reflexivity.
Defined.

Lemma last_tier_wins_witness :
  Tier.resolve_model_with_performance_tier
    (Tier.resolve_model_with_performance_tier "gpt-5" "high" "") "auto" "low"
  = Tier.resolve_model_with_performance_tier "gpt-5" "auto" "low"
  /\ Tier.resolve_model_with_performance_tier "gpt-5" "auto" "low" = "gpt-5-low".
Proof.
  apply (last_tier_wins "gpt-5" "high" "" "auto" "low").
  - reflexivity.
  - right. left. reflexivity.
  - reflexivity.
  - discriminate.
Defined.
